(** * sdf_xarray: the SDF-to-dataset translation layer

    A shallow embedding of [src/sdf_xarray/__init__.py]: the function
    [open_sdf_dataset] and the probe [SDFEntrypoint.guess_can_open].

    Python dicts keep insertion order, and that order is observable here
    (last write wins, the order in which blocks are visited), so a dict is
    an association list that holds each key once. *)

From Stdlib Require Import String Ascii List ZArith Bool Lia Floats Permutation.
Import ListNotations.
Open Scope string_scope.
Open Scope list_scope.

(* ================================================================== *)
(** * Exceptions and results *)

(** A key of a Python dict in this program: a block name or axis label
    (str) or a dimension size (int). *)
Inductive pykey : Type :=
| KStr (s : string)
| KInt (z : Z).

(** The exceptions the modelled code can raise. *)
Inductive exn : Type :=
| KeyError (k : pykey)
| TypeError.

Inductive result (A : Type) : Type :=
| Ok (a : A)
| Raise (e : exn).

Arguments Ok {A} a.
Arguments Raise {A} e.

Definition bind {A B : Type} (m : result A) (f : A -> result B) : result B :=
  match m with
  | Ok a => f a
  | Raise e => Raise e
  end.

Notation "x <- m ;; k" := (bind m (fun x => k))
  (at level 61, m at next level, right associativity).
Notation "' p <- m ;; k" := (bind m (fun p => k))
  (at level 61, p pattern, m at next level, right associativity).

(** Evaluate [f] on the elements from left to right; the first exception
    stops the traversal. *)
Fixpoint mapM {A B : Type} (f : A -> result B) (l : list A) : result (list B) :=
  match l with
  | [] => Ok []
  | a :: r => b <- f a ;; bs <- mapM f r ;; Ok (b :: bs)
  end.

(* ================================================================== *)
(** * Insertion-ordered dicts *)

Class EqKey (K : Type) : Type := {
  keqb : K -> K -> bool;
  keqb_spec : forall x y : K, reflect (x = y) (keqb x y)
}.

#[export] Instance EqKey_string : EqKey string :=
  {| keqb := String.eqb; keqb_spec := String.eqb_spec |}.

#[export] Instance EqKey_Z : EqKey Z :=
  {| keqb := Z.eqb; keqb_spec := Z.eqb_spec |}.

Section Dict.
Context {K : Type} `{EqKey K} {V : Type}.

Definition dict_keys (d : list (K * V)) : list K := map fst d.

(** [k in d] *)
Definition dict_mem (k : K) (d : list (K * V)) : bool :=
  existsb (fun kv => keqb k (fst kv)) d.

(** [d.get(k)] *)
Fixpoint dict_get (k : K) (d : list (K * V)) : option V :=
  match d with
  | [] => None
  | (k', v) :: r => if keqb k k' then Some v else dict_get k r
  end.

(** [d[k] = v]: an existing key keeps its position, a new key goes last. *)
Fixpoint dict_set (k : K) (v : V) (d : list (K * V)) : list (K * V) :=
  match d with
  | [] => [(k, v)]
  | (k', v') :: r =>
      if keqb k k' then (k', v) :: r else (k', v') :: dict_set k v r
  end.

(** [del d[k]] on a dict that has [k]: the entry of [k] goes, the others
    keep their order. *)
Definition dict_remove (k : K) (d : list (K * V)) : list (K * V) :=
  filter (fun kv => negb (keqb k (fst kv))) d.

(** [d1.update(d2)] *)
Definition dict_update (d1 d2 : list (K * V)) : list (K * V) :=
  fold_left (fun acc kv => dict_set (fst kv) (snd kv) acc) d2 d1.
End Dict.

Definition dict (V : Type) : Type := list (string * V).

(* ================================================================== *)
(** * The blocks the SDF reader returns *)

(** A scalar Python value, as held by a constant block or a header field. *)
Inductive pyval : Type :=
| PyInt (z : Z)
| PyFloat (f : float)
| PyStr (s : string)
| PyBool (b : bool).

(** A numeric array: its shape and its elements in row-major order.  The
    translation layer passes arrays through untouched. *)
Record ndarray : Type := NDArray {
  shape : list Z;
  elements : list float
}.

(** [sdf.BlockPlainMesh] *)
Record BlockPlainMesh : Type := {
  mesh_name : string;
  mesh_labels : list string;
  mesh_units : list string;
  mesh_dims : list Z;
  mesh_data : list ndarray
}.

(** [sdf.BlockPlainVariable] *)
Record BlockPlainVariable : Type := {
  var_name : string;
  var_units : string;
  var_dims : list Z;
  var_data : ndarray;
  var_grid : BlockPlainMesh;
  var_grid_mid : BlockPlainMesh
}.

(** A value of the mapping returned by [sdf.read(..., dict=True)]: the
    entries "Header" and "Run_info" are plain dicts, the others are block
    objects; the block classes this module does not test for are
    [BlockOther]. *)
Inductive Block : Type :=
| PyDict (d : dict pyval)
| BlockConstant (data : pyval)
| PlainMesh (m : BlockPlainMesh)
| PlainVariable (v : BlockPlainVariable)
| BlockOther.

(* ================================================================== *)
(** * Names *)

(** [s.split("/", maxsplit=1)]: the text before the first "/" and the text
    after it, or [s] alone when it holds no "/". *)
Fixpoint split_once (s : string) : list string :=
  match s with
  | EmptyString => [EmptyString]
  | String c r =>
      if Ascii.eqb c "/" then [EmptyString; r]
      else match split_once r with
           | a :: rest => String c a :: rest
           | [] => [String c EmptyString]
           end
  end.

(** ["/" in s] *)
Fixpoint has_slash (s : string) : bool :=
  match s with
  | EmptyString => false
  | String c r => Ascii.eqb c "/" || has_slash r
  end.

(** [key.split("/", maxsplit=1)[-1]] *)
Definition base_name (key : string) : string := last (split_once key) key.

(** [f"{label}_{base_name}"] *)
Definition full_name (label base : string) : string := label ++ "_" ++ base.

(** [key.startswith("CPU")] *)
Definition startswith_CPU (key : string) : bool := String.prefix "CPU" key.

(** The blocks the loop does not skip at source lines 36-38. *)
Definition not_CPU (item : string * Block) : bool :=
  negb (startswith_CPU (fst item)).

(* ================================================================== *)
(** * The size lookup: axis label -> dimension size -> coordinate name *)

(** [defaultdict(dict)] *)
Definition lookup : Type := dict (list (Z * string)).

(** [d[k]] of a [defaultdict(dict)]: a missing key stands for a new empty
    dict. *)
Definition inner_of (t : lookup) (dim_name : string) : list (Z * string) :=
  match dict_get dim_name t with
  | Some inner => inner
  | None => []
  end.

(** [dim_size_lookup[dim_name][dim_size] = name] *)
Definition lookup_set (dim_name : string) (dim_size : Z) (name : string)
  (t : lookup) : lookup :=
  dict_set dim_name (dict_set dim_size name (inner_of t dim_name)) t.

(** One of the two loops over [zip(mesh.dims, mesh.labels)] (source lines
    75-77 and 79-81). *)
Definition populate (mesh : BlockPlainMesh) (t : lookup) : lookup :=
  let grid_base_name := base_name (mesh_name mesh) in
  fold_left
    (fun t (p : Z * string) =>
       let (dim_size, dim_name) := p in
       lookup_set dim_name dim_size (full_name dim_name grid_base_name) t)
    (combine (mesh_dims mesh) (mesh_labels mesh)) t.

(** The table built while a variable block is visited: the primary mesh
    first, the staggered mesh second. *)
Definition build_lookup (value : BlockPlainVariable) : lookup :=
  populate (var_grid_mid value) (populate (var_grid value) []).

(** [dim_size_lookup[dim_name][dim_size]] as an expression.  On a missing
    label the defaultdict first stores an empty dict under it and the inner
    subscript then raises; the exception leaves [open_sdf_dataset], so that
    store is never read again. *)
Definition lookup_get (t : lookup) (dim_name : string) (dim_size : Z)
  : result string :=
  match dict_get dim_size (inner_of t dim_name) with
  | Some name => Ok name
  | None => Raise (KeyError (KInt dim_size))
  end.

(* ================================================================== *)
(** * The frame of [open_sdf_dataset] *)

(** The generator expression of source lines 83-86, not yet consumed.  Its
    outermost iterable [zip(value.grid.labels, value.dims)] is evaluated
    when the generator is created; its body refers to the local variable
    [dim_size_lookup] of the enclosing call and reads that variable only
    when the generator is consumed. *)
Record var_coords_gen : Type := Gen {
  gen_pairs : list (string * Z)
}.

Definition coord_tuple : Type := (string * ndarray * dict pyval)%type.
Definition pending_var : Type := (var_coords_gen * ndarray * dict pyval)%type.
Definition data_var : Type := (list string * ndarray * dict pyval)%type.

(** The local variables of the call that the loop over the blocks reads
    and writes. *)
Record Frame : Type := {
  attrs : dict pyval;
  data_vars : dict pending_var;
  coords : dict coord_tuple;
  dim_size_lookup : lookup
}.

Definition initial_frame (attrs0 : dict pyval) : Frame :=
  {| attrs := attrs0; data_vars := []; coords := []; dim_size_lookup := [] |}.

(** The entries one mesh block writes into [coords] (source lines 50-58),
    in order. *)
Definition mesh_coords (key : string) (value : BlockPlainMesh)
  : list (string * coord_tuple) :=
  let base := base_name key in
  map
    (fun (p : string * (ndarray * string)) =>
       let '(label, (coord, unit)) := p in
       let name := full_name label base in
       (name, (name, coord, [("long_name", PyStr label); ("units", PyStr unit)])))
    (combine (mesh_labels value) (combine (mesh_data value) (mesh_units value))).

(** The entry one variable block writes into [data_vars] (lines 83-89). *)
Definition pending_of (value : BlockPlainVariable) : pending_var :=
  (Gen (combine (mesh_labels (var_grid value)) (var_dims value)),
   var_data value,
   [("units", PyStr (var_units value))]).

(** One iteration of [for key, value in data.items()]. *)
Definition visit (fr : Frame) (item : string * Block) : Frame :=
  let (key, value) := item in
  if startswith_CPU key then fr
  else
    match value with
    | BlockConstant c =>
        {| attrs := dict_set key c (attrs fr);
           data_vars := data_vars fr;
           coords := coords fr;
           dim_size_lookup := dim_size_lookup fr |}
    | PlainMesh m =>
        {| attrs := attrs fr;
           data_vars := data_vars fr;
           coords := dict_update (coords fr) (mesh_coords key m);
           dim_size_lookup := dim_size_lookup fr |}
    | PlainVariable v =>
        {| attrs := attrs fr;
           data_vars := dict_set key (pending_of v) (data_vars fr);
           coords := coords fr;
           dim_size_lookup := build_lookup v |}
    | PyDict _ | BlockOther => fr
    end.

Definition convert_blocks (attrs0 : dict pyval) (data : dict Block) : Frame :=
  fold_left visit data (initial_frame attrs0).

(* ================================================================== *)
(** * The dataset *)

Record Dataset : Type := {
  ds_data_vars : dict data_var;
  ds_coords : dict coord_tuple;
  ds_attrs : dict pyval
}.

(** [ds[key].dims] *)
Definition dims_of (ds : Dataset) (key : string) : option (list string) :=
  option_map (fun dv : data_var => fst (fst dv)) (dict_get key (ds_data_vars ds)).

(** Consuming a generator in a frame where [dim_size_lookup] is bound to
    [t]: the elements are computed in order, the first exception ends it. *)
Definition consume (t : lookup) (g : var_coords_gen) : result (list string) :=
  mapM (fun p : string * Z => lookup_get t (fst p) (snd p)) (gen_pairs g).

Definition realise (t : lookup) (item : string * pending_var)
  : result (string * data_var) :=
  let '(key, (g, data, data_attrs)) := item in
  dims <- consume t g ;;
  Ok (key, (dims, data, data_attrs)).

(** [xr.Dataset(data_vars, attrs=attrs, coords=coords)], called at source
    line 98 with the frame as the loop left it.  The host library turns
    each [(dims, data, attrs)] tuple into a variable, which consumes the
    dims iterable: that is where code of this module runs inside the
    constructor, and an exception raised there leaves the constructor.
    This is the only step of the constructor that is modelled.  The
    constructor also checks what it is given and raises [ValueError] when
    a name is used for a data variable and for a coordinate, when the
    number of dimension names is not the rank of the array, or when one
    dimension is given two sizes; none of that is modelled.  So [Ok ds]
    means that every generator was consumed and that [ds] holds what the
    constructor was given, not that the host library accepted it, and
    [Raise e] is an exception of a generator.  The theorems speak of a
    dataset that was returned, of outcomes of two calls that give the
    constructor the same arguments, or of the frame and its generators. *)
Definition xr_Dataset (fr : Frame) : result Dataset :=
  vars <- mapM (realise (dim_size_lookup fr)) (data_vars fr) ;;
  Ok {| ds_data_vars := vars; ds_coords := coords fr; ds_attrs := attrs fr |}.

(* ================================================================== *)
(** * [open_sdf_dataset] *)

(** [for variable in drop_variables: data.pop(variable)] *)
Fixpoint pop_each (names : list string) (data : dict Block)
  : result (dict Block) :=
  match names with
  | [] => Ok data
  | variable :: rest =>
      if dict_mem variable data
      then pop_each rest (dict_remove variable data)
      else Raise (KeyError (KStr variable))
  end.

(** Source lines 21-24; [None] and the empty list are both falsy. *)
Definition drop_requested (drop_variables : option (list string))
  (data : dict Block) : result (dict Block) :=
  match drop_variables with
  | None => Ok data
  | Some [] => Ok data
  | Some names => pop_each names data
  end.

(** The mapping after [del data[n]] for each [n] of [names] in turn. *)
Definition remove_all (names : list string) (data : dict Block) : dict Block :=
  fold_left (fun d n => dict_remove n d) names data.

(** [data.pop(key, {})] *)
Definition pop_or_empty (key : string) (data : dict Block)
  : Block * dict Block :=
  match dict_get key data with
  | Some value => (value, dict_remove key data)
  | None => (PyDict [], data)
  end.

(** The value [data.pop(key, {})] returns. *)
Definition get_or_empty (key : string) (data : dict Block) : Block :=
  fst (pop_or_empty key data).

(** [attrs.update(x)]; the reader supplies a plain dict here, any block
    object is refused by [dict.update]. *)
Definition attrs_update (attrs0 : dict pyval) (x : Block)
  : result (dict pyval) :=
  match x with
  | PyDict d => Ok (dict_update attrs0 d)
  | _ => Raise TypeError
  end.

(** Source lines 27-29. *)
Definition read_metadata (data : dict Block)
  : result (dict pyval * dict Block) :=
  let (header, data1) := pop_or_empty "Header" data in
  attrs1 <- attrs_update [] header ;;
  let (run_info, data2) := pop_or_empty "Run_info" data1 in
  attrs2 <- attrs_update attrs1 run_info ;;
  Ok (attrs2, data2).

(** Source lines 26-98, on the mapping left by the exclusion step. *)
Definition assemble (data : dict Block) : result Dataset :=
  '(attrs0, rest) <- read_metadata data ;;
  xr_Dataset (convert_blocks attrs0 rest).

(** [open_sdf_dataset], on the mapping [data] that [sdf.read] returned. *)
Definition open_sdf_dataset (data : dict Block)
  (drop_variables : option (list string)) : result Dataset :=
  data1 <- drop_requested drop_variables data ;;
  assemble data1.

(* ================================================================== *)
(** * What the loop keeps, by kind of block *)

(** The constant blocks the loop reads (source lines 40-42), in the order
    of the mapping: name and value. *)
Definition kept_constants (data : dict Block) : dict pyval :=
  flat_map
    (fun item : string * Block =>
       if startswith_CPU (fst item) then []
       else match snd item with
            | BlockConstant c => [(fst item, c)]
            | _ => []
            end)
    data.

(** The coordinate entries the mesh blocks write (lines 44-58), in the
    order in which the loop writes them. *)
Definition kept_mesh_coords (data : dict Block) : dict coord_tuple :=
  flat_map
    (fun item : string * Block =>
       if startswith_CPU (fst item) then []
       else match snd item with
            | PlainMesh m => mesh_coords (fst item) m
            | _ => []
            end)
    data.

(** The variable blocks the loop reads (lines 59-89), in the order of the
    mapping. *)
Definition kept_variables (data : dict Block) : dict BlockPlainVariable :=
  flat_map
    (fun item : string * Block =>
       if startswith_CPU (fst item) then []
       else match snd item with
            | PlainVariable v => [(fst item, v)]
            | _ => []
            end)
    data.

(** The blocks left for the loop once "Header" and "Run_info" are taken
    out. *)
Definition blocks_of (data : dict Block) : dict Block :=
  dict_remove "Run_info" (dict_remove "Header" data).

(** A block the loop has a branch for, or one of the two metadata
    entries. *)
Definition handled (item : string * Block) : bool :=
  String.eqb (fst item) "Header" || String.eqb (fst item) "Run_info"
  || match snd item with
     | BlockConstant _ | PlainMesh _ | PlainVariable _ => true
     | PyDict _ | BlockOther => false
     end.

(** Everything but the mesh blocks; the two metadata entries stay
    whatever they hold. *)
Definition not_mesh (item : string * Block) : bool :=
  String.eqb (fst item) "Header" || String.eqb (fst item) "Run_info"
  || match snd item with
     | PlainMesh _ => false
     | _ => true
     end.

(* ================================================================== *)
(** * [SDFEntrypoint.guess_can_open] *)

(** What a caller may pass as [filename_or_obj]: a str, an object with
    [__fspath__] giving a str (a [pathlib.Path]), a bytes path, or an
    object that is no path at all (an open file, a buffer). *)
Inductive filename_or_obj : Type :=
| PathStr (p : string)
| PathLike (p : string)
| PathBytes (p : list Byte.byte)
| NotAPath.

(** [b"SDF1"] *)
Definition SDF1 : list Byte.byte := list_byte_of_string "SDF1".

(** [bytes.startswith] *)
Fixpoint bytes_startswith (b pre : list Byte.byte) : bool :=
  match pre, b with
  | [], _ => true
  | _ :: _, [] => false
  | p :: pre', x :: b' => Byte.eqb p x && bytes_startswith b' pre'
  end.

(** [str.rfind] of one character: the index of its last occurrence, -1
    when there is none. *)
Fixpoint rfind_from (c : ascii) (s : string) (i last_seen : Z) : Z :=
  match s with
  | EmptyString => last_seen
  | String x r => rfind_from c r (i + 1) (if Ascii.eqb x c then i else last_seen)
  end.

Definition rfind (c : ascii) (s : string) : Z := rfind_from c s 0 (-1).

(** The [while filenameIndex < dotIndex] loop of the standard library's
    [genericpath._splitext]: is there a character other than "." at an
    index from [filenameIndex] up to [dotIndex]?  [steps] bounds the walk
    by [dotIndex - filenameIndex]. *)
Fixpoint name_before_dot (p : string) (filenameIndex : Z) (steps : nat) : bool :=
  match steps with
  | O => false
  | S steps' =>
      match String.get (Z.to_nat filenameIndex) p with
      | Some c =>
          if Ascii.eqb c "." then name_before_dot p (filenameIndex + 1) steps'
          else true
      | None => false
      end
  end.

(** [os.path.splitext(p)] on a POSIX host: the extension starts at the
    last "." of the last path component, unless only dots precede it
    there. *)
Definition splitext (p : string) : string * string :=
  let sepIndex := rfind "/" p in
  let dotIndex := rfind "." p in
  if (sepIndex <? dotIndex)%Z
     && name_before_dot p (sepIndex + 1) (Z.to_nat (dotIndex - (sepIndex + 1)))
  then (substring 0 (Z.to_nat dotIndex) p,
        substring (Z.to_nat dotIndex) (String.length p - Z.to_nat dotIndex) p)
  else (p, EmptyString).

(** [ext in {".sdf", ".SDF"}] *)
Definition is_sdf_ext (ext : string) : bool :=
  String.eqb ext ".sdf" || String.eqb ext ".SDF".

(** [guess_can_open].  [magic_number] is what the host library's
    [try_read_magic_number_from_path(filename_or_obj)] returned: the first
    bytes of the file, or [None] when they could not be read.  On a bytes
    path [splitext] gives a bytes extension, which is no member of a set
    of str; on an object that is no path it raises [TypeError], which is
    caught. *)
Definition guess_can_open (magic_number : option (list Byte.byte))
  (f : filename_or_obj) : bool :=
  match magic_number with
  | Some m => bytes_startswith m SDF1
  | None =>
      match f with
      | PathStr p | PathLike p => is_sdf_ext (snd (splitext p))
      | PathBytes _ => false
      | NotAPath => false
      end
  end.

(* ================================================================== *)
(** * Sample inputs *)

Module Samples.

Definition arr (n : Z) : ndarray := NDArray [n] [].

Definition mesh (name : string) (labels units : list string) (dims : list Z)
  : BlockPlainMesh :=
  {| mesh_name := name; mesh_labels := labels; mesh_units := units;
     mesh_dims := dims; mesh_data := map arr dims |}.

Definition variable (name units : string) (dims : list Z)
  (grid grid_mid : BlockPlainMesh) : BlockPlainVariable :=
  {| var_name := name; var_units := units; var_dims := dims;
     var_data := NDArray dims []; var_grid := grid; var_grid_mid := grid_mid |}.

(** The usual pair of meshes of a 1-D run: 129 cell edges, 128 centres. *)
Definition Grid : BlockPlainMesh := mesh "Grid/Grid" ["X"] ["m"] [129%Z].
Definition Grid_mid : BlockPlainMesh := mesh "Grid/Grid_mid" ["X"] ["m"] [128%Z].

Definition Ex : BlockPlainVariable :=
  variable "Electric Field/Ex" "V/m" [128%Z] Grid Grid_mid.

(** A bookkeeping variable; its size is found on neither mesh. *)
Definition Rank : BlockPlainVariable :=
  variable "CPU/Current rank" "" [4%Z] Grid Grid_mid.

(** A variable whose size is found on neither of its meshes. *)
Definition Odd : BlockPlainVariable :=
  variable "Derived/Odd" "1" [64%Z] Grid Grid_mid.

(** A second pair of meshes, with other sizes, and a variable on it. *)
Definition Sub : BlockPlainMesh := mesh "Grid/Sub" ["X"] ["m"] [9%Z].
Definition Sub_mid : BlockPlainMesh := mesh "Grid/Sub_mid" ["X"] ["m"] [8%Z].
Definition Rho : BlockPlainVariable :=
  variable "Derived/Rho" "C/m^3" [8%Z] Sub Sub_mid.

(** A third pair of meshes with the sizes of the first pair, and a
    variable on it. *)
Definition Fine : BlockPlainMesh := mesh "Grid/Fine" ["X"] ["m"] [129%Z].
Definition Fine_mid : BlockPlainMesh := mesh "Grid/Fine_mid" ["X"] ["m"] [128%Z].
Definition Temp : BlockPlainVariable :=
  variable "Derived/Temp" "K" [128%Z] Fine Fine_mid.

Definition one_file : dict Block :=
  [ ("Header", PyDict [("time", PyFloat 1.0%float)]);
    ("Run_info", PyDict [("time", PyFloat 2.0%float)]);
    ("Wall-time", BlockConstant (PyFloat 0.5%float));
    ("CPU/Ranks", BlockConstant (PyInt 4));
    ("CPU/Current rank", PlainVariable Rank);
    ("Grid/Grid", PlainMesh Grid);
    ("Grid/Grid_mid", PlainMesh Grid_mid);
    ("Electric Field/Ex", PlainVariable Ex) ].

(** The same file with a variable that fits neither mesh. *)
Definition odd_file : dict Block :=
  one_file ++ [("Derived/Odd", PlainVariable Odd)].

(** The same file with a second pair of meshes and a variable on it: a
    pair of other sizes, and a pair of the same sizes under other names. *)
Definition rho_file : dict Block :=
  one_file ++ [ ("Grid/Sub", PlainMesh Sub);
                ("Grid/Sub_mid", PlainMesh Sub_mid);
                ("Derived/Rho", PlainVariable Rho) ].

Definition temp_file : dict Block :=
  one_file ++ [ ("Grid/Fine", PlainMesh Fine);
                ("Grid/Fine_mid", PlainMesh Fine_mid);
                ("Derived/Temp", PlainVariable Temp) ].

(** Two meshes named as in a hand-written example, both with the axis
    label "X". *)
Definition X_Grid : BlockPlainMesh := mesh "Grid/X_Grid" ["X"] ["m"] [129%Z].
Definition X_Grid_mid : BlockPlainMesh :=
  mesh "Grid_mid/X_Grid_mid" ["X"] ["m"] [128%Z].

Definition two_grids : dict Block :=
  [ ("Grid/X_Grid", PlainMesh X_Grid);
    ("Grid_mid/X_Grid_mid", PlainMesh X_Grid_mid) ].

(** Two meshes that differ only before the first "/". *)
Definition A_G : BlockPlainMesh := mesh "A/G" ["X"] ["m"] [5%Z].
Definition B_G : BlockPlainMesh := mesh "B/G" ["X"] ["m"] [7%Z].

Definition same_base : dict Block :=
  [ ("A/G", PlainMesh A_G); ("B/G", PlainMesh B_G) ].

End Samples.

(* ================================================================== *)
(** * Facts about results and dicts *)

Lemma mapM_raises (A B : Type) (f : A -> result B) (l : list A) (x : A) (e : exn) :
  In x l -> f x = Raise e -> exists e', mapM f l = Raise e'.
Proof.
  induction l as [|a r IH]; simpl; intros Hin Hx; [contradiction|].
  destruct Hin as [->|Hin].
  - rewrite Hx. simpl. eauto.
  - destruct (f a) as [b|e0]; simpl; [|eauto].
    destruct (IH Hin Hx) as [e' ->]. simpl. eauto.
Qed.

Lemma mapM_ok_length (A B : Type) (f : A -> result B) (l : list A) (bs : list B) :
  mapM f l = Ok bs -> length bs = length l.
Proof.
  revert bs. induction l as [|a r IH]; simpl; intros bs Hm.
  - inversion Hm. reflexivity.
  - destruct (f a) as [b|e]; simpl in Hm; [|discriminate].
    destruct (mapM f r) as [bs'|e]; simpl in Hm; [|discriminate].
    inversion Hm. simpl. f_equal. apply IH. reflexivity.
Qed.

Lemma mapM_ok_nth (A B : Type) (f : A -> result B) (l : list A) (bs : list B)
  (i : nat) (a : A) :
  mapM f l = Ok bs -> nth_error l i = Some a ->
  exists b, nth_error bs i = Some b /\ f a = Ok b.
Proof.
  revert bs i. induction l as [|x r IH]; simpl; intros bs i Hm Hn.
  - destruct i; discriminate.
  - destruct (f x) as [b|e] eqn:Hx; simpl in Hm; [|discriminate].
    destruct (mapM f r) as [bs'|e]; simpl in Hm; [|discriminate].
    inversion Hm; subst bs. destruct i as [|i]; simpl in *.
    + inversion Hn; subst. eauto.
    + apply IH; auto.
Qed.

Section DictFacts.
Context {K : Type} `{EqKey K} {V : Type}.
Implicit Types (d e : list (K * V)) (k : K) (v : V).

Lemma keqb_refl k : keqb k k = true.
Proof. destruct (keqb_spec k k); congruence. Qed.

Lemma keqb_neq k k' : k <> k' -> keqb k k' = false.
Proof. destruct (keqb_spec k k'); congruence. Qed.

Lemma keqb_true k k' : keqb k k' = true -> k = k'.
Proof. destruct (keqb_spec k k'); congruence. Qed.

Lemma dict_get_set_same k v d : dict_get k (dict_set k v d) = Some v.
Proof.
  induction d as [|[k' v'] r IH]; simpl.
  - rewrite keqb_refl. reflexivity.
  - destruct (keqb k k') eqn:E; simpl; rewrite E; auto.
Qed.

Lemma dict_get_set_other k k' v d :
  k <> k' -> dict_get k' (dict_set k v d) = dict_get k' d.
Proof.
  intros Hne. induction d as [|[k1 v1] r IH]; simpl.
  - rewrite keqb_neq; auto.
  - destruct (keqb k k1) eqn:E; simpl.
    + apply keqb_true in E. subst k1. rewrite keqb_neq; auto.
    + rewrite IH. reflexivity.
Qed.

Lemma dict_keys_set k v d k' :
  In k' (dict_keys (dict_set k v d)) <-> k' = k \/ In k' (dict_keys d).
Proof.
  unfold dict_keys. induction d as [|[k1 v1] r IH]; simpl.
  - intuition.
  - destruct (keqb k k1) eqn:E; simpl.
    + apply keqb_true in E. subst k1. intuition.
    + rewrite IH. intuition.
Qed.

Lemma dict_set_NoDup k v d :
  NoDup (dict_keys d) -> NoDup (dict_keys (dict_set k v d)).
Proof.
  induction d as [|[k1 v1] r IH]; simpl; intros Hnd.
  - constructor; [intros []|constructor].
  - inversion Hnd as [|? ? Hnin Hr]; subst.
    destruct (keqb k k1) eqn:E; simpl.
    + constructor; assumption.
    + constructor; [|apply IH; assumption].
      intros Hin. apply dict_keys_set in Hin. destruct Hin as [->|Hin].
      * rewrite keqb_refl in E. discriminate.
      * apply Hnin, Hin.
Qed.

Lemma dict_update_NoDup d e :
  NoDup (dict_keys d) -> NoDup (dict_keys (dict_update d e)).
Proof.
  unfold dict_update. revert d.
  induction e as [|[k v] r IH]; simpl; intros d Hnd; [assumption|].
  apply IH, dict_set_NoDup, Hnd.
Qed.

Lemma dict_update_keys d e k :
  In k (dict_keys (dict_update d e)) <-> In k (dict_keys d) \/ In k (dict_keys e).
Proof.
  unfold dict_update. revert d.
  induction e as [|[k1 v1] r IH]; simpl; intros d.
  - intuition.
  - rewrite IH, dict_keys_set. intuition.
Qed.

Lemma dict_get_update_notin d e k :
  ~ In k (dict_keys e) -> dict_get k (dict_update d e) = dict_get k d.
Proof.
  unfold dict_update. revert d.
  induction e as [|[k1 v1] r IH]; simpl; intros d Hnin; [reflexivity|].
  rewrite IH by tauto. apply dict_get_set_other. intros ->. tauto.
Qed.

Lemma dict_get_In k v d : dict_get k d = Some v -> In (k, v) d.
Proof.
  induction d as [|[k1 v1] r IH]; simpl; [discriminate|].
  destruct (keqb k k1) eqn:E.
  - apply keqb_true in E. intros Hs. inversion Hs. subst. auto.
  - auto.
Qed.

Lemma dict_get_None k d : dict_get k d = None <-> ~ In k (dict_keys d).
Proof.
  unfold dict_keys. induction d as [|[k1 v1] r IH]; simpl.
  - intuition.
  - destruct (keqb k k1) eqn:E.
    + apply keqb_true in E. subst. split; [discriminate|]. intuition.
    + rewrite IH. split; [|tauto].
      intros Hn [->|Hin]; [|tauto]. rewrite keqb_refl in E. discriminate.
Qed.

Lemma In_dict_get k v d : NoDup (dict_keys d) -> In (k, v) d -> dict_get k d = Some v.
Proof.
  induction d as [|[k1 v1] r IH]; simpl; intros Hnd Hin; [contradiction|].
  inversion Hnd as [|? ? Hnin Hr]; subst.
  destruct Hin as [Heq|Hin].
  - inversion Heq; subst. rewrite keqb_refl. reflexivity.
  - destruct (keqb k k1) eqn:E; [|auto].
    apply keqb_true in E. subst k1. exfalso. apply Hnin.
    apply (in_map fst) in Hin. exact Hin.
Qed.

Lemma dict_get_update_in d e k v :
  NoDup (dict_keys e) -> dict_get k e = Some v ->
  dict_get k (dict_update d e) = Some v.
Proof.
  revert d. induction e as [|[k1 v1] r IH]; simpl; intros d Hnd Hg; [discriminate|].
  inversion Hnd as [|? ? Hnin Hr]; subst.
  change (dict_update d ((k1, v1) :: r)) with (dict_update (dict_set k1 v1 d) r).
  destruct (keqb k k1) eqn:E.
  - apply keqb_true in E. subst k1. inversion Hg; subst v1.
    rewrite dict_get_update_notin by assumption. apply dict_get_set_same.
  - apply IH; assumption.
Qed.

Lemma dict_mem_In k d : dict_mem k d = true <-> In k (dict_keys d).
Proof.
  unfold dict_mem, dict_keys. rewrite existsb_exists, in_map_iff. split.
  - intros [x [Hin E]]. apply keqb_true in E. exists x. auto.
  - intros [x [E Hin]]. exists x. subst k. split; [assumption|apply keqb_refl].
Qed.

Lemma dict_mem_false k d : dict_mem k d = false <-> ~ In k (dict_keys d).
Proof.
  rewrite <- dict_mem_In. destruct (dict_mem k d); split; congruence.
Qed.

Lemma dict_remove_keys k d k' :
  In k' (dict_keys (dict_remove k d)) <-> k' <> k /\ In k' (dict_keys d).
Proof.
  unfold dict_keys, dict_remove. rewrite !in_map_iff. split.
  - intros [x [E Hin]]. apply filter_In in Hin. destruct Hin as [Hin Hb].
    subst k'. split; [|eauto].
    intros Heq. rewrite Heq, keqb_refl in Hb. discriminate.
  - intros [Hne [x [E Hin]]]. exists x. split; [assumption|].
    apply filter_In. split; [assumption|]. subst k'.
    rewrite keqb_neq; auto.
Qed.

Lemma dict_remove_In k d k' v :
  In (k', v) (dict_remove k d) <-> k' <> k /\ In (k', v) d.
Proof.
  unfold dict_remove. rewrite filter_In. simpl. split.
  - intros [Hin Hb]. split; [|assumption].
    intros ->. rewrite keqb_refl in Hb. discriminate.
  - intros [Hne Hin]. split; [assumption|]. rewrite keqb_neq; auto.
Qed.

Lemma dict_remove_absent k d : dict_get k d = None -> dict_remove k d = d.
Proof.
  unfold dict_remove. induction d as [|[k1 v1] r IH]; simpl; [reflexivity|].
  destruct (keqb k k1); simpl; [discriminate|].
  intros Hg. rewrite IH; auto.
Qed.

Lemma dict_remove_NoDup k d :
  NoDup (dict_keys d) -> NoDup (dict_keys (dict_remove k d)).
Proof.
  unfold dict_remove, dict_keys. induction d as [|[k1 v1] r IH]; simpl; intros Hnd.
  - constructor.
  - inversion Hnd as [|? ? Hnin Hr]; subst.
    destruct (keqb k k1); simpl; [auto|].
    constructor; [|auto].
    intros Hin. apply Hnin. apply in_map_iff in Hin.
    destruct Hin as [x [E Hin]]. apply filter_In in Hin.
    apply in_map_iff. exists x. tauto.
Qed.

Lemma dict_get_remove_other k k' d :
  k <> k' -> dict_get k' (dict_remove k d) = dict_get k' d.
Proof.
  intros Hne. unfold dict_remove.
  induction d as [|[k1 v1] r IH]; simpl; [reflexivity|].
  destruct (keqb k k1) eqn:E; simpl.
  - apply keqb_true in E. subst k1. rewrite keqb_neq; auto.
  - rewrite IH. reflexivity.
Qed.
End DictFacts.

(* ================================================================== *)
(** * Facts about names *)

Lemma split_once_no_slash (s : string) :
  has_slash s = false -> split_once s = [s].
Proof.
  induction s as [|c r IH]; simpl; intros Hs; [reflexivity|].
  apply orb_false_iff in Hs. destruct Hs as [Hc Hr].
  rewrite Hc, (IH Hr). reflexivity.
Qed.

Lemma split_once_slash (a b : string) :
  has_slash a = false -> split_once (a ++ "/" ++ b) = [a; b].
Proof.
  induction a as [|c r IH]; simpl; intros Hs; [reflexivity|].
  apply orb_false_iff in Hs. destruct Hs as [Hc Hr].
  rewrite Hc. simpl in IH. rewrite (IH Hr). reflexivity.
Qed.

Lemma base_name_no_slash (key : string) :
  has_slash key = false -> base_name key = key.
Proof. intros Hs. unfold base_name. rewrite split_once_no_slash; auto. Qed.

Lemma base_name_after_slash (a b : string) :
  has_slash a = false -> base_name (a ++ "/" ++ b) = b.
Proof. intros Hs. unfold base_name. rewrite split_once_slash; auto. Qed.

Lemma full_name_inj (label b1 b2 : string) :
  full_name label b1 = full_name label b2 -> b1 = b2.
Proof.
  unfold full_name. induction label as [|c r IH]; simpl; intros Heq.
  - inversion Heq. reflexivity.
  - inversion Heq. auto.
Qed.

(* ================================================================== *)
(** * Facts about the size lookup *)

Lemma lookup_get_empty (l : string) (s : Z) :
  lookup_get [] l s = Raise (KeyError (KInt s)).
Proof. reflexivity. Qed.

Lemma lookup_get_set_same (l : string) (s : Z) (n : string) (t : lookup) :
  lookup_get (lookup_set l s n t) l s = Ok n.
Proof.
  unfold lookup_get, lookup_set, inner_of.
  rewrite dict_get_set_same, dict_get_set_same. reflexivity.
Qed.

Lemma lookup_get_set_other (l l' : string) (s s' : Z) (n : string) (t : lookup) :
  (s, l) <> (s', l') ->
  lookup_get (lookup_set l s n t) l' s' = lookup_get t l' s'.
Proof.
  intros Hne. unfold lookup_get, lookup_set, inner_of.
  destruct (String.eqb_spec l l') as [->|Hl].
  - rewrite dict_get_set_same.
    rewrite dict_get_set_other; [reflexivity|].
    intros ->. apply Hne. reflexivity.
  - rewrite dict_get_set_other by assumption. reflexivity.
Qed.

Lemma pair_Z_string_dec (p q : Z * string) : {p = q} + {p <> q}.
Proof. decide equality; [apply string_dec|apply Z.eq_dec]. Qed.

Section Populate.
Variable base : string.

Let write (t : lookup) (p : Z * string) : lookup :=
  let (dim_size, dim_name) := p in
  lookup_set dim_name dim_size (full_name dim_name base) t.

Lemma writes_keep (pairs : list (Z * string)) (t : lookup) (l : string) (s : Z) :
  ~ In (s, l) pairs ->
  lookup_get (fold_left write pairs t) l s = lookup_get t l s.
Proof.
  revert t. induction pairs as [|[s1 l1] r IH]; simpl; intros t Hnin; [reflexivity|].
  rewrite IH by tauto. apply lookup_get_set_other. tauto.
Qed.

Lemma writes_bind (pairs : list (Z * string)) (t : lookup) (l : string) (s : Z) :
  In (s, l) pairs ->
  lookup_get (fold_left write pairs t) l s = Ok (full_name l base).
Proof.
  revert t. induction pairs as [|[s1 l1] r IH]; simpl; intros t Hin; [contradiction|].
  destruct (in_dec pair_Z_string_dec (s, l) r) as [Hr|Hr].
  - apply IH, Hr.
  - destruct Hin as [Heq|Hin]; [|contradiction].
    inversion Heq; subst. rewrite writes_keep by assumption.
    apply lookup_get_set_same.
Qed.
End Populate.

Lemma populate_keeps (m : BlockPlainMesh) (t : lookup) (l : string) (s : Z) :
  ~ In (s, l) (combine (mesh_dims m) (mesh_labels m)) ->
  lookup_get (populate m t) l s = lookup_get t l s.
Proof. intros Hn. unfold populate. apply writes_keep, Hn. Qed.

Lemma populate_binds (m : BlockPlainMesh) (t : lookup) (l : string) (s : Z) :
  In (s, l) (combine (mesh_dims m) (mesh_labels m)) ->
  lookup_get (populate m t) l s = Ok (full_name l (base_name (mesh_name m))).
Proof. intros Hi. unfold populate. apply writes_bind, Hi. Qed.

Lemma build_lookup_misses (v : BlockPlainVariable) (l : string) (s : Z) :
  ~ In (s, l) (combine (mesh_dims (var_grid v)) (mesh_labels (var_grid v))) ->
  ~ In (s, l) (combine (mesh_dims (var_grid_mid v)) (mesh_labels (var_grid_mid v))) ->
  lookup_get (build_lookup v) l s = Raise (KeyError (KInt s)).
Proof.
  intros H1 H2. unfold build_lookup.
  rewrite populate_keeps, populate_keeps by assumption. apply lookup_get_empty.
Qed.

Lemma staggered_lookup_cases (v : BlockPlainVariable) :
  (forall (l : string) (s : Z),
     In (s, l) (combine (mesh_dims (var_grid_mid v)) (mesh_labels (var_grid_mid v))) ->
     lookup_get (build_lookup v) l s
     = Ok (full_name l (base_name (mesh_name (var_grid_mid v)))))
  /\ (forall (l : string) (s : Z),
        In (s, l) (combine (mesh_dims (var_grid v)) (mesh_labels (var_grid v))) ->
        ~ In (s, l) (combine (mesh_dims (var_grid_mid v)) (mesh_labels (var_grid_mid v))) ->
        lookup_get (build_lookup v) l s
        = Ok (full_name l (base_name (mesh_name (var_grid v))))).
Proof.
  split.
  - intros l s Hin. unfold build_lookup. apply populate_binds, Hin.
  - intros l s Hin Hnin. unfold build_lookup.
    rewrite populate_keeps by exact Hnin. apply populate_binds, Hin.
Qed.


(* ================================================================== *)
(** * The capability probe *)


Lemma is_sdf_ext_spec (ext : string) :
  is_sdf_ext ext = true <-> ext = ".sdf" \/ ext = ".SDF".
Proof.
  unfold is_sdf_ext. rewrite orb_true_iff, !String.eqb_eq. reflexivity.
Qed.


(** The probe on a few names: the extension is compared as written, a
    name made of the extension alone has none, and magic bytes that were
    read decide alone. *)
Example guess_can_open_samples :
  guess_can_open None (PathStr "run/0001.sdf") = true
  /\ guess_can_open None (PathLike "0001.SDF") = true
  /\ guess_can_open None (PathStr "0001.Sdf") = false
  /\ guess_can_open None (PathStr ".sdf") = false
  /\ guess_can_open None (PathBytes (list_byte_of_string "0001.sdf")) = false
  /\ guess_can_open (Some (list_byte_of_string "SDF1abcd")) (PathStr "x.txt") = true
  /\ guess_can_open (Some (list_byte_of_string "HDF5data")) (PathStr "x.sdf") = false
  /\ guess_can_open (Some (list_byte_of_string "SDF")) (PathStr "x.sdf") = false.
Proof. repeat split; vm_compute; reflexivity. Qed.

(* ================================================================== *)
(** * Facts about the loop over the blocks *)

Lemma visit_CPU (fr : Frame) (key : string) (value : Block) :
  startswith_CPU key = true -> visit fr (key, value) = fr.
Proof. intros Hc. unfold visit. rewrite Hc. reflexivity. Qed.

Lemma filter_not_CPU_cons (key : string) (value : Block) (l : dict Block) :
  filter not_CPU ((key, value) :: l)
  = if startswith_CPU key then filter not_CPU l
    else (key, value) :: filter not_CPU l.
Proof. unfold not_CPU. simpl. destruct (startswith_CPU key); reflexivity. Qed.

Lemma fold_visit_skips_CPU (l : dict Block) (fr : Frame) :
  fold_left visit (filter not_CPU l) fr = fold_left visit l fr.
Proof.
  revert fr. induction l as [|[key value] r IH]; intros fr; [reflexivity|].
  rewrite filter_not_CPU_cons. destruct (startswith_CPU key) eqn:Hc.
  - cbn [fold_left]. rewrite (visit_CPU fr key value Hc). apply IH.
  - cbn [fold_left]. apply IH.
Qed.

Lemma dict_get_skips_CPU (key : string) (l : dict Block) :
  startswith_CPU key = false ->
  dict_get key (filter not_CPU l) = dict_get key l.
Proof.
  intros Hk. induction l as [|[k1 v1] r IH]; [reflexivity|].
  rewrite filter_not_CPU_cons. destruct (startswith_CPU k1) eqn:Hc.
  - cbn [dict_get]. destruct (keqb_spec key k1) as [->|_]; [congruence|exact IH].
  - cbn [dict_get]. rewrite IH. reflexivity.
Qed.

Lemma filter_swap (A : Type) (f g : A -> bool) (l : list A) :
  filter f (filter g l) = filter g (filter f l).
Proof.
  induction l as [|a r IH]; simpl; [reflexivity|].
  destruct (g a) eqn:Hg; destruct (f a) eqn:Hf; simpl;
    rewrite ?Hg, ?Hf, IH; reflexivity.
Qed.

Lemma dict_remove_skips_CPU (key : string) (l : dict Block) :
  dict_remove key (filter not_CPU l) = filter not_CPU (dict_remove key l).
Proof. unfold dict_remove. apply filter_swap. Qed.

Lemma pop_or_empty_skips_CPU (key : string) (l : dict Block) :
  startswith_CPU key = false ->
  pop_or_empty key (filter not_CPU l)
  = (fst (pop_or_empty key l), filter not_CPU (snd (pop_or_empty key l))).
Proof.
  intros Hk. unfold pop_or_empty. rewrite (dict_get_skips_CPU key l Hk).
  destruct (dict_get key l); cbn [fst snd]; [|reflexivity].
  rewrite dict_remove_skips_CPU. reflexivity.
Qed.

Lemma assemble_skips_CPU (data : dict Block) :
  assemble (filter not_CPU data) = assemble data.
Proof.
  unfold assemble, read_metadata.
  rewrite (pop_or_empty_skips_CPU "Header" data eq_refl).
  destruct (pop_or_empty "Header" data) as [header data1]. cbn [fst snd].
  destruct (attrs_update [] header) as [attrs1|e]; [|reflexivity].
  cbn [bind].
  rewrite (pop_or_empty_skips_CPU "Run_info" data1 eq_refl).
  destruct (pop_or_empty "Run_info" data1) as [run_info data2]. cbn [fst snd].
  destruct (attrs_update attrs1 run_info) as [attrs2|e]; [|reflexivity].
  cbn [bind]. unfold convert_blocks. rewrite fold_visit_skips_CPU. reflexivity.
Qed.

Lemma pop_or_empty_rest (key : string) (data : dict Block) :
  snd (pop_or_empty key data) = dict_remove key data.
Proof.
  unfold pop_or_empty. destruct (dict_get key data) eqn:Hg; cbn [snd].
  - reflexivity.
  - symmetry. apply dict_remove_absent, Hg.
Qed.

Lemma read_metadata_rest (data : dict Block) (attrs0 : dict pyval) (rest : dict Block) :
  read_metadata data = Ok (attrs0, rest) ->
  rest = dict_remove "Run_info" (dict_remove "Header" data).
Proof.
  unfold read_metadata.
  rewrite <- (pop_or_empty_rest "Header" data).
  destruct (pop_or_empty "Header" data) as [header data1]. cbn [snd].
  destruct (attrs_update [] header) as [attrs1|e]; [|discriminate].
  cbn [bind]. rewrite <- (pop_or_empty_rest "Run_info" data1).
  destruct (pop_or_empty "Run_info" data1) as [run_info data2]. cbn [snd].
  destruct (attrs_update attrs1 run_info) as [attrs2|e]; [|discriminate].
  cbn [bind]. intros Hok. inversion Hok. reflexivity.
Qed.

Lemma visit_data_vars_keys (fr : Frame) (item : string * Block) (k : string) :
  In k (dict_keys (data_vars (visit fr item))) ->
  In k (dict_keys (data_vars fr)) \/ (k = fst item /\ startswith_CPU k = false).
Proof.
  destruct item as [key value]. unfold visit.
  destruct (startswith_CPU key) eqn:Hc; [auto|].
  destruct value; cbn [data_vars fst]; auto.
  intros Hin. apply dict_keys_set in Hin. destruct Hin as [->|Hin]; auto.
Qed.

Lemma fold_visit_data_vars_keys (l : dict Block) (fr : Frame) (k : string) :
  In k (dict_keys (data_vars (fold_left visit l fr))) ->
  In k (dict_keys (data_vars fr))
  \/ (In k (dict_keys l) /\ startswith_CPU k = false).
Proof.
  revert fr. induction l as [|item r IH]; cbn [fold_left]; intros fr Hin; [auto|].
  destruct (IH _ Hin) as [Hv|[Hr Hc]].
  - destruct (visit_data_vars_keys _ _ _ Hv) as [Hf|[-> Hc]]; [auto|].
    right. split; [left; reflexivity|exact Hc].
  - right. split; [right; exact Hr|exact Hc].
Qed.

Lemma realise_key (t : lookup) (item : string * pending_var) (out : string * data_var) :
  realise t item = Ok out -> fst out = fst item.
Proof.
  destruct item as [key [[g data] data_attrs]]. unfold realise.
  destruct (consume t g); cbn [bind]; [|discriminate].
  intros Hok. inversion Hok. reflexivity.
Qed.

Lemma mapM_realise_keys (t : lookup) (l : dict pending_var) (out : dict data_var) :
  mapM (realise t) l = Ok out -> dict_keys out = dict_keys l.
Proof.
  revert out. induction l as [|item r IH]; cbn [mapM]; intros out Hm.
  - inversion Hm. reflexivity.
  - destruct (realise t item) as [o|e] eqn:Hr; cbn [bind] in Hm; [|discriminate].
    destruct (mapM (realise t) r) as [os|e]; cbn [bind] in Hm; [|discriminate].
    inversion Hm. unfold dict_keys. cbn [map]. f_equal.
    + apply (realise_key _ _ _ Hr).
    + apply IH. reflexivity.
Qed.

Lemma xr_Dataset_ok (fr : Frame) (ds : Dataset) :
  xr_Dataset fr = Ok ds ->
  dict_keys (ds_data_vars ds) = dict_keys (data_vars fr)
  /\ ds_coords ds = coords fr /\ ds_attrs ds = attrs fr.
Proof.
  unfold xr_Dataset.
  destruct (mapM (realise (dim_size_lookup fr)) (data_vars fr)) as [vars|e] eqn:Hm;
    cbn [bind]; [|discriminate].
  intros Hok. inversion Hok. cbn. split; [|auto].
  apply (mapM_realise_keys _ _ _ Hm).
Qed.

Lemma assemble_ok (data : dict Block) (ds : Dataset) :
  assemble data = Ok ds ->
  exists attrs0,
    read_metadata data = Ok (attrs0, dict_remove "Run_info" (dict_remove "Header" data))
    /\ xr_Dataset
         (convert_blocks attrs0 (dict_remove "Run_info" (dict_remove "Header" data)))
       = Ok ds.
Proof.
  unfold assemble. destruct (read_metadata data) as [[attrs0 rest]|e] eqn:Hm;
    cbn [bind]; [|discriminate].
  intros Hx. pose proof (read_metadata_rest _ _ _ Hm) as ->. eauto.
Qed.

(* ================================================================== *)
(** * Bookkeeping blocks *)

(** C8.  The blocks whose name starts with "CPU" leave no trace: the
    outcome of the read, a dataset or an exception, is the outcome of the
    same read on the mapping without them (taken after the requested
    exclusions, which may name such a block), and no data variable bears
    such a name. *)
Theorem CPU_blocks_never_surface (data : dict Block)
  (drop_variables : option (list string)) :
  open_sdf_dataset data drop_variables
  = (data1 <- drop_requested drop_variables data ;;
     assemble (filter not_CPU data1))
  /\ open_sdf_dataset data None = open_sdf_dataset (filter not_CPU data) None
  /\ (forall (ds : Dataset) (key : string),
        open_sdf_dataset data drop_variables = Ok ds ->
        startswith_CPU key = true ->
        ~ In key (dict_keys (ds_data_vars ds))).
Proof.
  split; [|split].
  - unfold open_sdf_dataset.
    destruct (drop_requested drop_variables data) as [data1|e]; cbn [bind];
      [|reflexivity].
    symmetry. apply assemble_skips_CPU.
  - unfold open_sdf_dataset. cbn [drop_requested bind].
    symmetry. apply assemble_skips_CPU.
  - intros ds key Hopen Hc Hin. unfold open_sdf_dataset in Hopen.
    destruct (drop_requested drop_variables data) as [data1|e]; cbn [bind] in Hopen;
      [|discriminate].
    destruct (assemble_ok _ _ Hopen) as [attrs0 [_ Hx]].
    destruct (xr_Dataset_ok _ _ Hx) as [Hkeys _].
    rewrite Hkeys in Hin. unfold convert_blocks in Hin.
    destruct (fold_visit_data_vars_keys _ _ _ Hin) as [Hnil|[_ Hf]].
    + exact Hnil.
    + congruence.
Qed.

Lemma CPU_blocks_never_surface_witness :
  startswith_CPU "CPU/Current rank" = true
  /\ In "CPU/Current rank" (dict_keys Samples.one_file)
  /\ exists ds, open_sdf_dataset Samples.one_file None = Ok ds
                /\ ~ In "CPU/Current rank" (dict_keys (ds_data_vars ds)).
Proof.
  split; [reflexivity|]. split; [simpl; tauto|].
  eexists. split; [vm_compute; reflexivity|].
  destruct (CPU_blocks_never_surface Samples.one_file None) as [_ [_ Hv]].
  apply Hv; [vm_compute; reflexivity|reflexivity].
Defined.

(* ================================================================== *)
(** * Run-level metadata *)

Lemma pop_or_empty_pair (key : string) (data : dict Block) :
  pop_or_empty key data = (get_or_empty key data, dict_remove key data).
Proof.
  unfold get_or_empty. rewrite <- pop_or_empty_rest.
  apply surjective_pairing.
Qed.

Lemma get_or_empty_remove_other (k k' : string) (data : dict Block) :
  k <> k' -> get_or_empty k' (dict_remove k data) = get_or_empty k' data.
Proof.
  intros Hne. unfold get_or_empty, pop_or_empty.
  rewrite (dict_get_remove_other k k' data Hne).
  destruct (dict_get k' data); reflexivity.
Qed.

Lemma read_metadata_eq (data : dict Block) :
  read_metadata data
  = (attrs1 <- attrs_update [] (get_or_empty "Header" data) ;;
     attrs2 <- attrs_update attrs1 (get_or_empty "Run_info" data) ;;
     Ok (attrs2, dict_remove "Run_info" (dict_remove "Header" data))).
Proof.
  unfold read_metadata. rewrite pop_or_empty_pair.
  destruct (attrs_update [] (get_or_empty "Header" data)) as [attrs1|e];
    cbn [bind]; [|reflexivity].
  rewrite pop_or_empty_pair, get_or_empty_remove_other by discriminate.
  reflexivity.
Qed.

Lemma get_or_empty_unfold (key : string) (data : dict Block) :
  get_or_empty key data
  = match dict_get key data with Some value => value | None => PyDict [] end.
Proof. unfold get_or_empty, pop_or_empty. destruct (dict_get key data); reflexivity. Qed.

Lemma get_or_empty_some (key : string) (data : dict Block) (value : Block) :
  dict_get key data = Some value -> get_or_empty key data = value.
Proof. intros Hg. unfold get_or_empty, pop_or_empty. rewrite Hg. reflexivity. Qed.

Lemma get_or_empty_none (key : string) (data : dict Block) :
  dict_get key data = None -> get_or_empty key data = PyDict [].
Proof. intros Hg. unfold get_or_empty, pop_or_empty. rewrite Hg. reflexivity. Qed.

Lemma visit_attrs_keep (fr : Frame) (item : string * Block) (k : string) :
  (forall c, item = (k, BlockConstant c) -> startswith_CPU k = true) ->
  dict_get k (attrs (visit fr item)) = dict_get k (attrs fr).
Proof.
  destruct item as [key value]. intros Hc. unfold visit.
  destruct (startswith_CPU key) eqn:Hcpu; [reflexivity|].
  destruct value as [d|c|m|v|]; cbn [attrs]; try reflexivity.
  apply dict_get_set_other. intros ->.
  rewrite (Hc c eq_refl) in Hcpu. discriminate.
Qed.

Lemma fold_visit_attrs_keep (l : dict Block) (fr : Frame) (k : string) :
  (forall c, In (k, BlockConstant c) l -> startswith_CPU k = true) ->
  dict_get k (attrs (fold_left visit l fr)) = dict_get k (attrs fr).
Proof.
  revert fr. induction l as [|item r IH]; cbn [fold_left]; intros fr Hc; [reflexivity|].
  rewrite IH.
  - apply visit_attrs_keep. intros c ->. apply (Hc c). left. reflexivity.
  - intros c Hin. apply (Hc c). right. exact Hin.
Qed.

(** C9.  When the mapping holds the dicts "Header" and "Run_info", both
    are taken out of the mapping before the blocks are classified, and
    the attribute mapping starts as Header's entries updated with
    Run_info's: its keys are the keys of both, and a key of Run_info
    carries Run_info's value.  That value is also the dataset's attribute
    unless a constant block of the same name overwrites it later.  With
    Header {"time": 1.0} and Run_info {"time": 2.0} the dataset has the
    attribute time = 2.0. *)
Theorem header_then_run_info :
  (forall (data : dict Block) (h r : dict pyval),
     dict_get "Header" data = Some (PyDict h) ->
     dict_get "Run_info" data = Some (PyDict r) ->
     let merged := dict_update (dict_update [] h) r in
     let rest := dict_remove "Run_info" (dict_remove "Header" data) in
     read_metadata data = Ok (merged, rest)
     /\ assemble data = xr_Dataset (convert_blocks merged rest)
     /\ ~ In "Header" (dict_keys rest)
     /\ ~ In "Run_info" (dict_keys rest)
     /\ (forall k, In k (dict_keys merged)
                   <-> In k (dict_keys h) \/ In k (dict_keys r))
     /\ (forall k v, NoDup (dict_keys r) -> dict_get k r = Some v ->
                     dict_get k merged = Some v)
     /\ (forall k v ds,
           NoDup (dict_keys r) -> dict_get k r = Some v ->
           (forall c, In (k, BlockConstant c) rest -> startswith_CPU k = true) ->
           assemble data = Ok ds ->
           dict_get k (ds_attrs ds) = Some v))
  /\ (exists ds,
        open_sdf_dataset
          [("Header", PyDict [("time", PyFloat 1.0%float)]);
           ("Run_info", PyDict [("time", PyFloat 2.0%float)])] None = Ok ds
        /\ dict_get "time" (ds_attrs ds) = Some (PyFloat 2.0%float)).
Proof.
  split.
  - intros data h r Hh Hr merged rest.
    assert (Hmeta : read_metadata data = Ok (merged, rest)).
    { rewrite read_metadata_eq.
      rewrite (get_or_empty_some _ _ _ Hh), (get_or_empty_some _ _ _ Hr).
      reflexivity. }
    assert (Hmerged : forall k v, NoDup (dict_keys r) -> dict_get k r = Some v ->
                                  dict_get k merged = Some v).
    { intros k v Hnd Hg. apply dict_get_update_in; assumption. }
    split; [exact Hmeta|]. split; [|split; [|split; [|split; [|split]]]].
    + unfold assemble. rewrite Hmeta. reflexivity.
    + intros Hin. apply dict_remove_keys in Hin. destruct Hin as [_ Hin].
      apply dict_remove_keys in Hin. destruct Hin as [Hne _]. apply Hne. reflexivity.
    + intros Hin. apply dict_remove_keys in Hin. destruct Hin as [Hne _].
      apply Hne. reflexivity.
    + intros k. unfold merged. rewrite !dict_update_keys. simpl. tauto.
    + exact Hmerged.
    + intros k v ds Hnd Hg Hconst Hds.
      unfold assemble in Hds. rewrite Hmeta in Hds. cbn [bind] in Hds.
      destruct (xr_Dataset_ok _ _ Hds) as [_ [_ Ha]]. rewrite Ha.
      unfold convert_blocks. rewrite fold_visit_attrs_keep by exact Hconst.
      cbn [initial_frame attrs]. apply Hmerged; assumption.
  - eexists. split; vm_compute; reflexivity.
Qed.

Lemma header_then_run_info_witness :
  let data := Samples.one_file in
  let h := [("time", PyFloat 1.0%float)] in
  let r := [("time", PyFloat 2.0%float)] in
  dict_get "Header" data = Some (PyDict h)
  /\ dict_get "Run_info" data = Some (PyDict r)
  /\ NoDup (dict_keys r)
  /\ dict_get "time" r = Some (PyFloat 2.0%float)
  /\ exists ds, assemble data = Ok ds
                /\ dict_get "time" (ds_attrs ds) = Some (PyFloat 2.0%float).
Proof.
  intros data h r.
  assert (Hh : dict_get "Header" data = Some (PyDict h)) by reflexivity.
  assert (Hr : dict_get "Run_info" data = Some (PyDict r)) by reflexivity.
  assert (Hnd : NoDup (dict_keys r)).
  { simpl. constructor; [intros Hin; exact Hin|constructor]. }
  assert (Hg : dict_get "time" r = Some (PyFloat 2.0%float)) by reflexivity.
  split; [exact Hh|]. split; [exact Hr|]. split; [exact Hnd|]. split; [exact Hg|].
  eexists. split; [vm_compute; reflexivity|].
  destruct header_then_run_info as [Hgen _].
  destruct (Hgen data h r Hh Hr) as [_ [_ [_ [_ [_ [_ Hfinal]]]]]].
  apply (Hfinal "time" (PyFloat 2.0%float) _ Hnd Hg).
  - intros c Hin. vm_compute in Hin.
    repeat (destruct Hin as [Hin|Hin]; [discriminate Hin|]). contradiction.
  - vm_compute. reflexivity.
Defined.

Lemma dict_update_nil (a : dict pyval) : dict_update a [] = a.
Proof. reflexivity. Qed.

Lemma assemble_eq (data : dict Block) :
  assemble data
  = (attrs1 <- attrs_update [] (get_or_empty "Header" data) ;;
     attrs2 <- attrs_update attrs1 (get_or_empty "Run_info" data) ;;
     xr_Dataset
       (convert_blocks attrs2 (dict_remove "Run_info" (dict_remove "Header" data)))).
Proof.
  unfold assemble. rewrite read_metadata_eq.
  destruct (attrs_update [] (get_or_empty "Header" data)) as [attrs1|e];
    cbn [bind]; [|reflexivity].
  destruct (attrs_update attrs1 (get_or_empty "Run_info" data)) as [attrs2|e];
    reflexivity.
Qed.

(** C10.  A mapping without "Header", without "Run_info" or without
    both is read like any other: taking a missing block out of the mapping
    raises nothing and yields no entries, so the attribute mapping starts
    with the entries of the block that is there, or empty, and the mapping
    itself is left as it was.  The outcome of the whole read is the one it
    would have with the missing block present and empty. *)
Theorem absent_metadata_blocks (data : dict Block) :
  (dict_get "Header" data = None -> dict_get "Run_info" data = None ->
   read_metadata data = Ok ([], data)
   /\ assemble data = xr_Dataset (convert_blocks [] data))
  /\ (forall r, dict_get "Header" data = None ->
                dict_get "Run_info" data = Some (PyDict r) ->
                read_metadata data
                = Ok (dict_update [] r, dict_remove "Run_info" data))
  /\ (forall h, dict_get "Header" data = Some (PyDict h) ->
                dict_get "Run_info" data = None ->
                read_metadata data
                = Ok (dict_update [] h, dict_remove "Header" data))
  /\ (dict_get "Header" data = None ->
      assemble data = assemble (("Header", PyDict []) :: data))
  /\ (dict_get "Run_info" data = None ->
      assemble data = assemble (("Run_info", PyDict []) :: data)).
Proof.
  split; [|split; [|split; [|split]]].
  - intros Hh Hr.
    assert (Hm : read_metadata data = Ok ([], data)).
    { rewrite read_metadata_eq.
      rewrite (get_or_empty_none _ _ Hh), (get_or_empty_none _ _ Hr).
      cbn [attrs_update bind]. rewrite !dict_update_nil.
      rewrite (dict_remove_absent _ _ Hh), (dict_remove_absent _ _ Hr). reflexivity. }
    split; [exact Hm|]. unfold assemble. rewrite Hm. reflexivity.
  - intros r Hh Hr. rewrite read_metadata_eq.
    rewrite (get_or_empty_none _ _ Hh), (get_or_empty_some _ _ _ Hr).
    cbn [attrs_update bind]. rewrite dict_update_nil.
    rewrite (dict_remove_absent _ _ Hh). reflexivity.
  - intros h Hh Hr. rewrite read_metadata_eq.
    rewrite (get_or_empty_some _ _ _ Hh), (get_or_empty_none _ _ Hr).
    cbn [attrs_update bind]. rewrite dict_update_nil.
    assert (Hr' : dict_get "Run_info" (dict_remove "Header" data) = None).
    { rewrite dict_get_remove_other by discriminate. exact Hr. }
    rewrite (dict_remove_absent _ _ Hr'). reflexivity.
  - intros Hh. rewrite !assemble_eq, !get_or_empty_unfold.
    rewrite Hh. reflexivity.
  - intros Hr. rewrite !assemble_eq, !get_or_empty_unfold.
    rewrite Hr. reflexivity.
Qed.

Lemma absent_metadata_blocks_witness :
  let data := [("Wall-time", BlockConstant (PyFloat 0.5%float));
               ("Grid/Grid", PlainMesh Samples.Grid);
               ("Grid/Grid_mid", PlainMesh Samples.Grid_mid);
               ("Electric Field/Ex", PlainVariable Samples.Ex)] in
  dict_get "Header" data = None
  /\ dict_get "Run_info" data = None
  /\ read_metadata data = Ok ([], data)
  /\ exists ds, open_sdf_dataset data None = Ok ds
                /\ ds_attrs ds = [("Wall-time", PyFloat 0.5%float)].
Proof.
  intros data.
  assert (Hh : dict_get "Header" data = None) by reflexivity.
  assert (Hr : dict_get "Run_info" data = None) by reflexivity.
  destruct (absent_metadata_blocks data) as [Hboth _].
  destruct (Hboth Hh Hr) as [Hm Ha].
  split; [exact Hh|]. split; [exact Hr|]. split; [exact Hm|].
  eexists. split.
  - unfold open_sdf_dataset. cbn [drop_requested bind]. rewrite Ha.
    vm_compute. reflexivity.
  - reflexivity.
Defined.

(* ================================================================== *)
(** * Coordinates *)

Lemma nth_error_combine (A B : Type) (l1 : list A) (l2 : list B) (i : nat)
  (a : A) (b : B) :
  nth_error l1 i = Some a -> nth_error l2 i = Some b ->
  nth_error (combine l1 l2) i = Some (a, b).
Proof.
  revert l2 i. induction l1 as [|x r IH]; intros l2 i H1 H2.
  - destruct i; discriminate.
  - destruct l2 as [|y r2]; [destruct i; discriminate|].
    destruct i as [|i]; simpl in *.
    + inversion H1; inversion H2; reflexivity.
    + apply IH; assumption.
Qed.




Lemma visit_coords_NoDup (fr : Frame) (item : string * Block) :
  NoDup (dict_keys (coords fr)) -> NoDup (dict_keys (coords (visit fr item))).
Proof.
  destruct item as [key value]. intros Hnd. unfold visit.
  destruct (startswith_CPU key); [exact Hnd|].
  destruct value; cbn [coords]; try exact Hnd.
  apply dict_update_NoDup, Hnd.
Qed.

Lemma fold_visit_coords_NoDup (l : dict Block) (fr : Frame) :
  NoDup (dict_keys (coords fr)) ->
  NoDup (dict_keys (coords (fold_left visit l fr))).
Proof.
  revert fr. induction l as [|item r IH]; cbn [fold_left]; intros fr Hnd; [exact Hnd|].
  apply IH, visit_coords_NoDup, Hnd.
Qed.

Lemma open_ok (data : dict Block) (drop_variables : option (list string))
  (ds : Dataset) :
  open_sdf_dataset data drop_variables = Ok ds ->
  exists data1 attrs0,
    drop_requested drop_variables data = Ok data1
    /\ read_metadata data1
       = Ok (attrs0, dict_remove "Run_info" (dict_remove "Header" data1))
    /\ xr_Dataset
         (convert_blocks attrs0 (dict_remove "Run_info" (dict_remove "Header" data1)))
       = Ok ds.
Proof.
  unfold open_sdf_dataset.
  destruct (drop_requested drop_variables data) as [data1|e]; cbn [bind];
    [|discriminate].
  intros Ha. destruct (assemble_ok _ _ Ha) as [attrs0 [Hm Hx]]. eauto.
Qed.




Lemma open_coords_NoDup (data : dict Block) (drop_variables : option (list string))
  (ds : Dataset) :
  open_sdf_dataset data drop_variables = Ok ds -> NoDup (dict_keys (ds_coords ds)).
Proof.
  intros Hopen. destruct (open_ok _ _ _ Hopen) as [data1 [attrs0 [_ [_ Hx]]]].
  destruct (xr_Dataset_ok _ _ Hx) as [_ [Hco _]]. rewrite Hco.
  unfold convert_blocks. apply fold_visit_coords_NoDup. constructor.
Qed.

(** C2, as the code has it.  The coordinate mapping of a dataset holds
    each name once.  Two meshes that share an axis label give it different
    names when their base names differ; when their base names are equal
    they give it one name, and the entry written later replaces the
    earlier one.  The meshes "Grid/X_Grid" and "Grid_mid/X_Grid_mid", both
    with the label "X", yield the names X_X_Grid and X_X_Grid_mid. *)
Theorem coordinate_names_by_base_name :
  (forall (data : dict Block) (drop_variables : option (list string)) (ds : Dataset),
     open_sdf_dataset data drop_variables = Ok ds ->
     NoDup (dict_keys (ds_coords ds)))
  /\ (forall label key1 key2 : string,
        base_name key1 <> base_name key2 ->
        full_name label (base_name key1) <> full_name label (base_name key2))
  /\ (exists ds, open_sdf_dataset Samples.two_grids None = Ok ds
                 /\ dict_keys (ds_coords ds) = ["X_X_Grid"; "X_X_Grid_mid"])
  /\ (exists ds, open_sdf_dataset Samples.same_base None = Ok ds
                 /\ ds_coords ds
                    = [("X_G", ("X_G", Samples.arr 7,
                                [("long_name", PyStr "X"); ("units", PyStr "m")]))]).
Proof.
  split; [exact open_coords_NoDup|]. split; [|split].
  - intros label key1 key2 Hne Heq. apply Hne. apply (full_name_inj _ _ _ Heq).
  - eexists. split; vm_compute; reflexivity.
  - eexists. split; vm_compute; reflexivity.
Qed.

Lemma coordinate_names_by_base_name_witness :
  (exists ds, open_sdf_dataset Samples.one_file None = Ok ds
              /\ NoDup (dict_keys (ds_coords ds)))
  /\ base_name "Grid/Grid" <> base_name "Grid/Grid_mid"
  /\ full_name "X" (base_name "Grid/Grid") <> full_name "X" (base_name "Grid/Grid_mid").
Proof.
  destruct coordinate_names_by_base_name as [Hnd [Hdiff _]].
  assert (Hb : base_name "Grid/Grid" <> base_name "Grid/Grid_mid")
    by (vm_compute; discriminate).
  split; [|split].
  - eexists. split; [vm_compute; reflexivity|].
    apply (Hnd Samples.one_file None). vm_compute. reflexivity.
  - exact Hb.
  - exact (Hdiff "X" "Grid/Grid" "Grid/Grid_mid" Hb).
Defined.

(** C2 as stated fails on the code: the two meshes of the stated example
    get the names X_X_Grid and X_X_Grid_mid, not X_Grid and X_Grid_mid,
    and the coordinate entries of the meshes "A/G" and "B/G" are given one
    and the same name. *)
Lemma coordinate_names_counterexample :
  map fst (mesh_coords "Grid/X_Grid" Samples.X_Grid
           ++ mesh_coords "Grid_mid/X_Grid_mid" Samples.X_Grid_mid)
  = ["X_X_Grid"; "X_X_Grid_mid"]
  /\ map fst (mesh_coords "A/G" Samples.A_G) = ["X_G"]
  /\ map fst (mesh_coords "B/G" Samples.B_G) = ["X_G"]
  /\ (exists ds, open_sdf_dataset Samples.same_base None = Ok ds
                 /\ dict_keys (ds_coords ds) = ["X_G"]).
Proof.
  split; [reflexivity|]. split; [reflexivity|]. split; [reflexivity|].
  eexists. split; vm_compute; reflexivity.
Qed.

(* ================================================================== *)
(** * The exclusion list *)

Lemma remove_all_keys (names : list string) (data : dict Block) (k : string) :
  In k (dict_keys (remove_all names data))
  <-> In k (dict_keys data) /\ ~ In k names.
Proof.
  unfold remove_all. revert data.
  induction names as [|n r IH]; cbn [fold_left]; intros data.
  - simpl. tauto.
  - rewrite IH, dict_remove_keys. simpl. split.
    + intros [[Hne Hin] Hr]. split; [exact Hin|].
      intros [Heq|Hin']; [apply Hne; symmetry; exact Heq|exact (Hr Hin')].
    + intros [Hin Hn]. split; [split; [|exact Hin]|].
      * intros Heq. apply Hn. left. symmetry. exact Heq.
      * intros Hr. apply Hn. right. exact Hr.
Qed.

Lemma pop_each_app (pre rest : list string) (data : dict Block) :
  NoDup pre -> (forall n, In n pre -> In n (dict_keys data)) ->
  pop_each (pre ++ rest) data = pop_each rest (remove_all pre data).
Proof.
  revert data. induction pre as [|a r IH]; intros data Hnd Hall; [reflexivity|].
  inversion Hnd as [|? ? Hnin Hr]; subst.
  cbn [app pop_each remove_all fold_left].
  assert (Ha : dict_mem a data = true).
  { apply dict_mem_In. apply Hall. left. reflexivity. }
  rewrite Ha. apply IH; [exact Hr|].
  intros n Hn. apply dict_remove_keys. split.
  - intros ->. exact (Hnin Hn).
  - apply Hall. right. exact Hn.
Qed.

Lemma pop_each_present (names : list string) (data : dict Block) :
  NoDup names -> (forall n, In n names -> In n (dict_keys data)) ->
  pop_each names data = Ok (remove_all names data).
Proof.
  intros Hnd Hall. rewrite <- (app_nil_r names) at 1.
  rewrite (pop_each_app names [] data Hnd Hall). reflexivity.
Qed.

Lemma pop_each_first_missing (pre post : list string) (m : string) (data : dict Block) :
  NoDup pre -> (forall n, In n pre -> In n (dict_keys data)) ->
  ~ In m (dict_keys data) \/ In m pre ->
  pop_each (pre ++ m :: post) data = Raise (KeyError (KStr m)).
Proof.
  intros Hnd Hall Hm. rewrite (pop_each_app pre (m :: post) data Hnd Hall).
  cbn [pop_each].
  assert (Hf : dict_mem m (remove_all pre data) = false).
  { apply dict_mem_false. rewrite remove_all_keys. tauto. }
  rewrite Hf. reflexivity.
Qed.

Lemma pop_each_some_missing (names : list string) (data : dict Block) :
  (exists n, In n names /\ ~ In n (dict_keys data)) ->
  exists m, In m names /\ pop_each names data = Raise (KeyError (KStr m)).
Proof.
  revert data. induction names as [|a r IH]; intros data [n [Hin Hn]];
    [contradiction|].
  cbn [pop_each]. destruct (dict_mem a data) eqn:Ha.
  - destruct Hin as [->|Hin].
    + apply dict_mem_In in Ha. contradiction.
    + destruct (IH (dict_remove a data)) as [m [Hm Hp]].
      * exists n. split; [exact Hin|]. rewrite dict_remove_keys. tauto.
      * exists m. split; [right; exact Hm|exact Hp].
  - exists a. split; [left; reflexivity|reflexivity].
Qed.

Lemma drop_requested_some (names : list string) (data : dict Block) :
  drop_requested (Some names) data = pop_each names data.
Proof. destruct names; reflexivity. Qed.

Lemma assemble_data_vars_keys (data : dict Block) (ds : Dataset) (k : string) :
  assemble data = Ok ds -> In k (dict_keys (ds_data_vars ds)) ->
  In k (dict_keys data).
Proof.
  intros Ha Hin. destruct (assemble_ok _ _ Ha) as [attrs0 [_ Hx]].
  destruct (xr_Dataset_ok _ _ Hx) as [Hk _]. rewrite Hk in Hin.
  unfold convert_blocks in Hin.
  destruct (fold_visit_data_vars_keys _ _ _ Hin) as [Hnil|[Hr _]]; [contradiction|].
  apply dict_remove_keys in Hr. destruct Hr as [_ Hr].
  apply dict_remove_keys in Hr. tauto.
Qed.

(** C3, as the code has it.  The listed names are taken out of the
    mapping one after the other, in list order, before anything else is
    read.  When every listed name is in the source mapping and none is
    listed twice, the read goes on with the mapping without the listed
    entries: its outcome is that of the read of that smaller mapping, no
    listed name is a key of it, and none names a data variable of the
    dataset.  The call fails with [KeyError] on the first listed name that
    is not in the mapping when its turn comes, because the source mapping
    lacks it or because an earlier occurrence in the list removed it; so
    it fails whenever a listed name is absent from the source mapping, and
    a single listed name that is absent is the one reported. *)
Theorem exclusion_list (data : dict Block) (names : list string) :
  (NoDup names -> (forall n, In n names -> In n (dict_keys data)) ->
   drop_requested (Some names) data = Ok (remove_all names data)
   /\ open_sdf_dataset data (Some names) = assemble (remove_all names data)
   /\ (forall n, In n names -> ~ In n (dict_keys (remove_all names data)))
   /\ (forall n ds, In n names ->
                    open_sdf_dataset data (Some names) = Ok ds ->
                    ~ In n (dict_keys (ds_data_vars ds))))
  /\ (forall (pre post : list string) (m : string),
        names = pre ++ m :: post ->
        NoDup pre -> (forall n, In n pre -> In n (dict_keys data)) ->
        ~ In m (dict_keys data) \/ In m pre ->
        open_sdf_dataset data (Some names) = Raise (KeyError (KStr m)))
  /\ ((exists n, In n names /\ ~ In n (dict_keys data)) ->
      exists m, In m names
                /\ open_sdf_dataset data (Some names) = Raise (KeyError (KStr m)))
  /\ (forall n, names = [n] -> ~ In n (dict_keys data) ->
                open_sdf_dataset data (Some names) = Raise (KeyError (KStr n))).
Proof.
  split; [|split; [|split]].
  - intros Hnd Hall.
    assert (Hdrop : drop_requested (Some names) data = Ok (remove_all names data)).
    { rewrite drop_requested_some. apply pop_each_present; assumption. }
    assert (Hopen : open_sdf_dataset data (Some names)
                    = assemble (remove_all names data)).
    { unfold open_sdf_dataset. rewrite Hdrop. reflexivity. }
    assert (Hgone : forall n, In n names -> ~ In n (dict_keys (remove_all names data))).
    { intros n Hn Hin. apply remove_all_keys in Hin. tauto. }
    split; [exact Hdrop|]. split; [exact Hopen|]. split; [exact Hgone|].
    intros n ds Hn Hds Hin. rewrite Hopen in Hds.
    apply (Hgone n Hn). apply (assemble_data_vars_keys _ _ _ Hds Hin).
  - intros pre post m -> Hnd Hall Hm. unfold open_sdf_dataset.
    rewrite drop_requested_some, (pop_each_first_missing pre post m data Hnd Hall Hm).
    reflexivity.
  - intros Hex. destruct (pop_each_some_missing names data Hex) as [m [Hm Hp]].
    exists m. split; [exact Hm|]. unfold open_sdf_dataset.
    rewrite drop_requested_some, Hp. reflexivity.
  - intros n -> Hn. unfold open_sdf_dataset. cbn [drop_requested pop_each].
    apply dict_mem_false in Hn. rewrite Hn. reflexivity.
Qed.

Lemma exclusion_list_witness :
  let data := Samples.one_file in
  let names := ["Wall-time"; "Grid/Grid"] in
  NoDup names
  /\ (forall n, In n names -> In n (dict_keys data))
  /\ open_sdf_dataset data (Some names) = assemble (remove_all names data)
  /\ ~ In "Wall-time" (dict_keys (remove_all names data))
  /\ ~ In "zz" (dict_keys data)
  /\ open_sdf_dataset data (Some ["zz"]) = Raise (KeyError (KStr "zz")).
Proof.
  intros data names.
  assert (Hnd : NoDup names).
  { constructor; [simpl; intros [H|[]]; discriminate H|].
    constructor; [simpl; tauto|constructor]. }
  assert (Hall : forall n, In n names -> In n (dict_keys data)).
  { intros n [<-|[<-|[]]]; simpl; tauto. }
  assert (Hzz : ~ In "zz" (dict_keys data)).
  { simpl. intros H.
    repeat (destruct H as [H|H]; [discriminate H|]). exact H. }
  destruct (exclusion_list data names) as [Hpresent _].
  destruct (Hpresent Hnd Hall) as [_ [Hopen [Hgone _]]].
  destruct (exclusion_list data ["zz"]) as [_ [_ [_ Hone]]].
  split; [exact Hnd|]. split; [exact Hall|]. split; [exact Hopen|].
  split; [apply Hgone; left; reflexivity|].
  split; [exact Hzz|].
  exact (Hone "zz" eq_refl Hzz).
Defined.

(** C3 as stated fails on the code: with a name that is present listed
    twice before a name that is absent, the call fails on the repeated
    name, which the source mapping holds, and does not report the absent
    one. *)
Lemma exclusion_list_counterexample :
  dict_mem "Wall-time" Samples.one_file = true
  /\ dict_mem "zz" Samples.one_file = false
  /\ open_sdf_dataset Samples.one_file (Some ["Wall-time"; "Wall-time"; "zz"])
     = Raise (KeyError (KStr "Wall-time")).
Proof. repeat split; vm_compute; reflexivity. Qed.

(* ================================================================== *)
(** * Resolution of the variables' axes *)

Lemma mapM_raise_origin (A B : Type) (f : A -> result B) (l : list A) (e : exn) :
  mapM f l = Raise e -> exists x, In x l /\ f x = Raise e.
Proof.
  induction l as [|a r IH]; cbn [mapM]; intros Hm; [discriminate|].
  destruct (f a) as [b|e0] eqn:Ha; cbn [bind] in Hm.
  - destruct (mapM f r) as [bs|e1]; cbn [bind] in Hm; [discriminate|].
    inversion Hm; subst e1. destruct (IH eq_refl) as [x [Hin Hx]].
    exists x. split; [right; exact Hin|exact Hx].
  - inversion Hm; subst e0. exists a. split; [left; reflexivity|exact Ha].
Qed.

Lemma lookup_get_raises (t : lookup) (l : string) (s : Z) (e : exn) :
  lookup_get t l s = Raise e -> e = KeyError (KInt s).
Proof.
  unfold lookup_get. destruct (dict_get s (inner_of t l)); intros Hr;
    inversion Hr; reflexivity.
Qed.

Lemma consume_raises (t : lookup) (g : var_coords_gen) (e : exn) :
  consume t g = Raise e -> exists s, e = KeyError (KInt s).
Proof.
  unfold consume. intros Hm.
  destruct (mapM_raise_origin _ _ _ _ _ Hm) as [[l s] [_ Hx]].
  exists s. apply (lookup_get_raises _ _ _ _ Hx).
Qed.

Lemma realise_raises (t : lookup) (item : string * pending_var) (e : exn) :
  realise t item = Raise e -> exists s, e = KeyError (KInt s).
Proof.
  destruct item as [key [[g data] data_attrs]]. unfold realise.
  destruct (consume t g) as [dims|e0] eqn:Hc; cbn [bind]; [discriminate|].
  intros Hr. inversion Hr; subst e0. apply (consume_raises _ _ _ Hc).
Qed.

Lemma xr_Dataset_raises (fr : Frame) (e : exn) :
  xr_Dataset fr = Raise e -> exists s, e = KeyError (KInt s).
Proof.
  unfold xr_Dataset.
  destruct (mapM (realise (dim_size_lookup fr)) (data_vars fr)) as [vars|e0] eqn:Hm;
    cbn [bind]; [discriminate|].
  intros Hr. inversion Hr; subst e0.
  destruct (mapM_raise_origin _ _ _ _ _ Hm) as [item [_ Hx]].
  apply (realise_raises _ _ _ Hx).
Qed.

Lemma pop_each_NoDup (names : list string) (data data1 : dict Block) :
  NoDup (dict_keys data) -> pop_each names data = Ok data1 ->
  NoDup (dict_keys data1).
Proof.
  revert data. induction names as [|n r IH]; cbn [pop_each]; intros data Hnd Hp.
  - inversion Hp; subst. exact Hnd.
  - destruct (dict_mem n data); [|discriminate].
    apply (IH (dict_remove n data)); [apply dict_remove_NoDup, Hnd|exact Hp].
Qed.

Lemma drop_requested_NoDup (drop_variables : option (list string))
  (data data1 : dict Block) :
  NoDup (dict_keys data) -> drop_requested drop_variables data = Ok data1 ->
  NoDup (dict_keys data1).
Proof.
  intros Hnd. destruct drop_variables as [names|].
  - rewrite drop_requested_some. apply pop_each_NoDup, Hnd.
  - cbn [drop_requested]. intros Hd. inversion Hd; subst. exact Hnd.
Qed.

Lemma visit_data_vars_other (fr : Frame) (item : string * Block) (key : string) :
  fst item <> key ->
  dict_get key (data_vars (visit fr item)) = dict_get key (data_vars fr).
Proof.
  destruct item as [k value]. cbn [fst]. intros Hne. unfold visit.
  destruct (startswith_CPU k); [reflexivity|].
  destruct value; cbn [data_vars]; try reflexivity.
  apply dict_get_set_other, Hne.
Qed.

Lemma fold_visit_data_vars_other (l : dict Block) (fr : Frame) (key : string) :
  ~ In key (dict_keys l) ->
  dict_get key (data_vars (fold_left visit l fr)) = dict_get key (data_vars fr).
Proof.
  revert fr. induction l as [|item r IH]; cbn [fold_left]; intros fr Hn; [reflexivity|].
  rewrite IH.
  - apply visit_data_vars_other. intros Heq. apply Hn. left. exact Heq.
  - intros Hin. apply Hn. right. exact Hin.
Qed.

Lemma fold_visit_data_vars_get (l : dict Block) (fr : Frame) (key : string)
  (v : BlockPlainVariable) :
  NoDup (dict_keys l) -> In (key, PlainVariable v) l -> startswith_CPU key = false ->
  dict_get key (data_vars (fold_left visit l fr)) = Some (pending_of v).
Proof.
  revert fr. induction l as [|item r IH]; cbn [fold_left]; intros fr Hnd Hin Hc;
    [contradiction|].
  unfold dict_keys in Hnd. cbn [map] in Hnd.
  inversion Hnd as [|? ? Hnin Hr]; subst.
  destruct Hin as [->|Hin].
  - rewrite fold_visit_data_vars_other by exact Hnin.
    unfold visit. rewrite Hc. cbn [data_vars]. apply dict_get_set_same.
  - apply IH; assumption.
Qed.

Lemma visit_lookup (fr : Frame) (item : string * Block) (T : lookup) :
  (forall v, item = (fst item, PlainVariable v) ->
             startswith_CPU (fst item) = false -> build_lookup v = T) ->
  dim_size_lookup fr = T -> dim_size_lookup (visit fr item) = T.
Proof.
  destruct item as [k value]. cbn [fst]. intros Hv Hfr. unfold visit.
  destruct (startswith_CPU k) eqn:Hc; [exact Hfr|].
  destruct value as [d|c|m|v|]; cbn [dim_size_lookup]; try exact Hfr.
  apply Hv; reflexivity.
Qed.

Lemma fold_visit_lookup_kept (l : dict Block) (fr : Frame) (T : lookup) :
  (forall k v, In (k, PlainVariable v) l -> startswith_CPU k = false ->
               build_lookup v = T) ->
  dim_size_lookup fr = T -> dim_size_lookup (fold_left visit l fr) = T.
Proof.
  revert fr. induction l as [|item r IH]; cbn [fold_left]; intros fr Hv Hfr;
    [exact Hfr|].
  apply IH.
  - intros k v Hin. apply Hv. right. exact Hin.
  - apply visit_lookup; [|exact Hfr].
    intros v Heq. apply Hv. left. exact Heq.
Qed.

Lemma fold_visit_lookup_shared (l : dict Block) (fr : Frame) (key : string)
  (v : BlockPlainVariable) :
  (forall k' v', In (k', PlainVariable v') l -> startswith_CPU k' = false ->
                 build_lookup v' = build_lookup v) ->
  In (key, PlainVariable v) l -> startswith_CPU key = false ->
  dim_size_lookup (fold_left visit l fr) = build_lookup v.
Proof.
  intros Hall Hin Hc. destruct (in_split _ _ Hin) as [l1 [l2 ->]].
  rewrite fold_left_app. cbn [fold_left].
  apply fold_visit_lookup_kept.
  - intros k' v' Hin'. apply Hall. apply in_or_app. right. right. exact Hin'.
  - unfold visit. rewrite Hc. reflexivity.
Qed.

(** The table in effect when the dataset is built is the one of the
    variable block visited last. *)
Lemma fold_visit_lookup_last (l1 l2 : dict Block) (fr : Frame) (key : string)
  (v : BlockPlainVariable) :
  startswith_CPU key = false ->
  (forall k' v', In (k', PlainVariable v') l2 -> startswith_CPU k' = true) ->
  dim_size_lookup (fold_left visit (l1 ++ (key, PlainVariable v) :: l2) fr)
  = build_lookup v.
Proof.
  intros Hc Hlast. rewrite fold_left_app. cbn [fold_left].
  apply fold_visit_lookup_kept.
  - intros k' v' Hin Hc'. rewrite (Hlast k' v' Hin) in Hc'. discriminate.
  - unfold visit. rewrite Hc. reflexivity.
Qed.

Lemma realise_unmatched (t : lookup) (key : string) (v : BlockPlainVariable)
  (i : nat) (label : string) (size : Z) :
  nth_error (mesh_labels (var_grid v)) i = Some label ->
  nth_error (var_dims v) i = Some size ->
  lookup_get t label size = Raise (KeyError (KInt size)) ->
  exists e, realise t (key, pending_of v) = Raise e.
Proof.
  intros Hl Hd Hg. unfold realise, pending_of, consume. cbn [gen_pairs].
  pose proof (nth_error_combine _ _ _ _ _ _ _ Hl Hd) as Hp.
  apply nth_error_In in Hp.
  destruct (mapM_raises _ _ (fun p : string * Z => lookup_get t (fst p) (snd p))
              _ (label, size) _ Hp Hg) as [e He].
  rewrite He. cbn [bind]. eauto.
Qed.

Lemma convert_unmatched (rest : dict Block) (attrs0 : dict pyval) (key : string)
  (v : BlockPlainVariable) (i : nat) (label : string) (size : Z) :
  NoDup (dict_keys rest) ->
  In (key, PlainVariable v) rest ->
  startswith_CPU key = false ->
  (forall k' v', In (k', PlainVariable v') rest -> startswith_CPU k' = false ->
                 var_grid v' = var_grid v /\ var_grid_mid v' = var_grid_mid v) ->
  nth_error (mesh_labels (var_grid v)) i = Some label ->
  nth_error (var_dims v) i = Some size ->
  ~ In (size, label) (combine (mesh_dims (var_grid v)) (mesh_labels (var_grid v))) ->
  ~ In (size, label)
      (combine (mesh_dims (var_grid_mid v)) (mesh_labels (var_grid_mid v))) ->
  exists s, xr_Dataset (convert_blocks attrs0 rest) = Raise (KeyError (KInt s)).
Proof.
  intros Hnd Hin Hc Hshared Hl Hd Hg Hm.
  assert (Hex : exists e, xr_Dataset (convert_blocks attrs0 rest) = Raise e).
  { unfold xr_Dataset, convert_blocks.
    rewrite (fold_visit_lookup_shared rest (initial_frame attrs0) key v).
    - pose proof (fold_visit_data_vars_get rest (initial_frame attrs0) key v
                    Hnd Hin Hc) as Hget.
      apply dict_get_In in Hget.
      destruct (realise_unmatched (build_lookup v) key v i label size Hl Hd
                  (build_lookup_misses v label size Hg Hm)) as [e He].
      destruct (mapM_raises _ _ _ _ _ _ Hget He) as [e' He'].
      rewrite He'. cbn [bind]. eauto.
    - intros k' v' Hin' Hc'. destruct (Hshared k' v' Hin' Hc') as [H1 H2].
      unfold build_lookup. rewrite H1, H2. reflexivity.
    - exact Hin.
    - exact Hc. }
  destruct Hex as [e He]. destruct (xr_Dataset_raises _ _ He) as [s ->].
  exists s. exact He.
Qed.

Lemma consume_unmatched (t : lookup) (v : BlockPlainVariable)
  (i : nat) (label : string) (size : Z) :
  nth_error (mesh_labels (var_grid v)) i = Some label ->
  nth_error (var_dims v) i = Some size ->
  lookup_get t label size = Raise (KeyError (KInt size)) ->
  exists s, consume t (fst (fst (pending_of v))) = Raise (KeyError (KInt s)).
Proof.
  intros Hl Hd Hg. unfold pending_of. cbn [fst].
  pose proof (nth_error_combine _ _ _ _ _ _ _ Hl Hd) as Hp.
  apply nth_error_In in Hp.
  destruct (mapM_raises _ _ (fun p : string * Z => lookup_get t (fst p) (snd p))
              _ (label, size) _ Hp Hg) as [e He].
  assert (Hc : consume t (Gen (combine (mesh_labels (var_grid v)) (var_dims v)))
               = Raise e) by exact He.
  destruct (consume_raises _ _ _ Hc) as [s ->]. exists s. exact Hc.
Qed.

(** C1, as the code has it.  A lookup that fails is not caught.  Take a
    mapping whose variable blocks all lie on one pair of meshes.  If one of
    them, not a bookkeeping block and not excluded, has an axis whose
    (label, size) pair is found neither on the primary nor on the staggered
    mesh, the read yields no dataset.  Once the metadata blocks are read,
    the loop stores that variable's generator among the data variables and
    leaves the variable's own table in [dim_size_lookup]; there the lookup
    of the axis raises [KeyError] with the size, and so does the
    consumption of the generator, which nothing catches. *)
Theorem unmatched_axis_aborts_read (data : dict Block)
  (drop_variables : option (list string)) (data1 : dict Block) (key : string)
  (v : BlockPlainVariable) (i : nat) (label : string) (size : Z) :
  NoDup (dict_keys data) ->
  drop_requested drop_variables data = Ok data1 ->
  In (key, PlainVariable v) data1 ->
  startswith_CPU key = false -> key <> "Header" -> key <> "Run_info" ->
  (forall k' v', In (k', PlainVariable v') data1 -> startswith_CPU k' = false ->
                 var_grid v' = var_grid v /\ var_grid_mid v' = var_grid_mid v) ->
  nth_error (mesh_labels (var_grid v)) i = Some label ->
  nth_error (var_dims v) i = Some size ->
  ~ In (size, label) (combine (mesh_dims (var_grid v)) (mesh_labels (var_grid v))) ->
  ~ In (size, label)
      (combine (mesh_dims (var_grid_mid v)) (mesh_labels (var_grid_mid v))) ->
  (exists e, open_sdf_dataset data drop_variables = Raise e)
  /\ (forall attrs0 rest,
        read_metadata data1 = Ok (attrs0, rest) ->
        dict_get key (data_vars (convert_blocks attrs0 rest)) = Some (pending_of v)
        /\ dim_size_lookup (convert_blocks attrs0 rest) = build_lookup v
        /\ lookup_get (dim_size_lookup (convert_blocks attrs0 rest)) label size
           = Raise (KeyError (KInt size))
        /\ exists s,
             consume (dim_size_lookup (convert_blocks attrs0 rest))
               (fst (fst (pending_of v)))
             = Raise (KeyError (KInt s))).
Proof.
  intros Hnd Hdrop Hin Hc Hh Hr Hshared Hl Hd Hg Hm.
  assert (Hframe : forall attrs0 rest,
             read_metadata data1 = Ok (attrs0, rest) ->
             dict_get key (data_vars (convert_blocks attrs0 rest)) = Some (pending_of v)
             /\ dim_size_lookup (convert_blocks attrs0 rest) = build_lookup v
             /\ lookup_get (dim_size_lookup (convert_blocks attrs0 rest)) label size
                = Raise (KeyError (KInt size))
             /\ exists s,
                  consume (dim_size_lookup (convert_blocks attrs0 rest))
                    (fst (fst (pending_of v)))
                  = Raise (KeyError (KInt s))).
  { intros attrs0 rest Hmeta.
    pose proof (read_metadata_rest _ _ _ Hmeta) as ->.
    assert (Hin' : In (key, PlainVariable v)
                     (dict_remove "Run_info" (dict_remove "Header" data1))).
    { apply dict_remove_In. split; [exact Hr|].
      apply dict_remove_In. split; [exact Hh|exact Hin]. }
    assert (Hnd' : NoDup (dict_keys (dict_remove "Run_info" (dict_remove "Header" data1)))).
    { apply dict_remove_NoDup, dict_remove_NoDup.
      apply (drop_requested_NoDup _ _ _ Hnd Hdrop). }
    assert (Htable : dim_size_lookup
                       (convert_blocks attrs0
                          (dict_remove "Run_info" (dict_remove "Header" data1)))
                     = build_lookup v).
    { unfold convert_blocks.
      apply (fold_visit_lookup_shared _ _ key v); [|exact Hin'|exact Hc].
      intros k' v' Hk Hc'. apply dict_remove_In in Hk. destruct Hk as [_ Hk].
      apply dict_remove_In in Hk. destruct Hk as [_ Hk].
      destruct (Hshared k' v' Hk Hc') as [H1 H2].
      unfold build_lookup. rewrite H1, H2. reflexivity. }
    split.
    { unfold convert_blocks. apply fold_visit_data_vars_get; assumption. }
    split; [exact Htable|]. rewrite Htable.
    split; [apply build_lookup_misses; assumption|].
    apply (consume_unmatched _ v i label size Hl Hd).
    apply build_lookup_misses; assumption. }
  split; [|exact Hframe].
  unfold open_sdf_dataset, assemble. rewrite Hdrop. cbn [bind].
  destruct (read_metadata data1) as [[attrs0 rest]|e] eqn:Hmeta; cbn [bind];
    [|eauto].
  destruct (Hframe attrs0 rest eq_refl) as [Hget [_ [Hlk _]]].
  apply dict_get_In in Hget.
  destruct (realise_unmatched _ key v i label size Hl Hd Hlk) as [e He].
  unfold xr_Dataset.
  destruct (mapM_raises _ _ _ _ _ _ Hget He) as [e' He'].
  rewrite He'. cbn [bind]. eauto.
Qed.

Lemma unmatched_axis_aborts_read_witness :
  let data := Samples.odd_file in
  NoDup (dict_keys data)
  /\ In ("Derived/Odd", PlainVariable Samples.Odd) data
  /\ nth_error (mesh_labels (var_grid Samples.Odd)) 0 = Some "X"
  /\ nth_error (var_dims Samples.Odd) 0 = Some 64%Z
  /\ (exists e, open_sdf_dataset data None = Raise e)
  /\ exists s,
       consume
         (dim_size_lookup (convert_blocks [("time", PyFloat 2.0%float)] (blocks_of data)))
         (fst (fst (pending_of Samples.Odd)))
       = Raise (KeyError (KInt s)).
Proof.
  intros data.
  assert (Hnd : NoDup (dict_keys data)).
  { vm_compute.
    repeat (constructor;
            [intros H; repeat (destruct H as [H|H]; [discriminate H|]); exact H|]).
    constructor. }
  assert (Hin : In ("Derived/Odd", PlainVariable Samples.Odd) data).
  { unfold data, Samples.odd_file. apply in_or_app. right. left. reflexivity. }
  assert (Hl : nth_error (mesh_labels (var_grid Samples.Odd)) 0 = Some "X")
    by reflexivity.
  assert (Hd : nth_error (var_dims Samples.Odd) 0 = Some 64%Z) by reflexivity.
  split; [exact Hnd|]. split; [exact Hin|]. split; [exact Hl|]. split; [exact Hd|].
  destruct (unmatched_axis_aborts_read data None data "Derived/Odd" Samples.Odd
              0%nat "X" 64%Z Hnd eq_refl Hin eq_refl) as [Habort Hframe].
  - discriminate.
  - discriminate.
  - intros k' v' Hin' _. unfold data, Samples.odd_file, Samples.one_file in Hin'.
    cbn [app] in Hin'.
    repeat (destruct Hin' as [Hin'|Hin'];
            [inversion Hin'; subst; split; reflexivity|]).
    contradiction.
  - exact Hl.
  - exact Hd.
  - simpl. intros [H|[]]. inversion H.
  - simpl. intros [H|[]]. inversion H.
  - split; [exact Habort|].
    destruct (Hframe [("time", PyFloat 2.0%float)] (blocks_of data) eq_refl)
      as [_ [_ [_ Hs]]].
    exact Hs.
Defined.

(** C1 as stated fails on the code: in a file whose variables lie on one
    pair of meshes, a variable of size 64 where the meshes have sizes 129
    and 128 is not left out; the read ends with the [KeyError] of its
    lookup, although the other variable of the file resolves when the file
    is read without it. *)
Lemma unmatched_axis_counterexample :
  open_sdf_dataset Samples.odd_file None = Raise (KeyError (KInt 64))
  /\ (exists ds, open_sdf_dataset Samples.one_file None = Ok ds
                 /\ dims_of ds "Electric Field/Ex" = Some ["X_Grid_mid"]).
Proof.
  split; [vm_compute; reflexivity|].
  eexists. split; vm_compute; reflexivity.
Qed.

Lemma mapM_all_ok (A B : Type) (f : A -> result B) (l : list A) :
  (forall x, In x l -> exists b, f x = Ok b) -> exists bs, mapM f l = Ok bs.
Proof.
  induction l as [|a r IH]; cbn [mapM]; intros Hall; [eauto|].
  destruct (Hall a (or_introl eq_refl)) as [b Hb]. rewrite Hb. cbn [bind].
  destruct IH as [bs Hbs].
  - intros x Hx. apply Hall. right. exact Hx.
  - rewrite Hbs. cbn [bind]. eauto.
Qed.

Lemma in_combine_nth (A B : Type) (l1 : list A) (l2 : list B) (a : A) (b : B) :
  In (a, b) (combine l1 l2) ->
  exists i, nth_error l1 i = Some a /\ nth_error l2 i = Some b.
Proof.
  revert l2. induction l1 as [|x r IH]; intros l2 Hin; [contradiction|].
  destruct l2 as [|y r2]; [contradiction|].
  destruct Hin as [Heq|Hin].
  - inversion Heq; subst. exists 0%nat. split; reflexivity.
  - destruct (IH r2 Hin) as [i [H1 H2]]. exists (S i). split; assumption.
Qed.

Lemma consume_own_lookup (v : BlockPlainVariable) :
  let grid := var_grid v in
  let grid_mid := var_grid_mid v in
  (forall i size, nth_error (var_dims v) i = Some size ->
     exists label, nth_error (mesh_labels grid) i = Some label
       /\ (In (size, label) (combine (mesh_dims grid) (mesh_labels grid))
           \/ In (size, label) (combine (mesh_dims grid_mid) (mesh_labels grid_mid)))) ->
  exists names,
    consume (build_lookup v) (fst (fst (pending_of v))) = Ok names
    /\ length names = length (var_dims v)
    /\ (forall i label size,
          nth_error (mesh_labels grid) i = Some label ->
          nth_error (var_dims v) i = Some size ->
          exists name,
            nth_error names i = Some name
            /\ lookup_get (build_lookup v) label size = Ok name
            /\ (In (size, label) (combine (mesh_dims grid_mid) (mesh_labels grid_mid)) ->
                name = full_name label (base_name (mesh_name grid_mid)))
            /\ (~ In (size, label) (combine (mesh_dims grid_mid) (mesh_labels grid_mid)) ->
                name = full_name label (base_name (mesh_name grid)))).
Proof.
  intros grid grid_mid Hall.
  destruct (staggered_lookup_cases v) as [Hmid Hprim].
  assert (Hres : forall label size,
             In (label, size) (combine (mesh_labels grid) (var_dims v)) ->
             exists name, lookup_get (build_lookup v) label size = Ok name).
  { intros label size Hin.
    destruct (in_combine_nth _ _ _ _ _ _ Hin) as [i [Hl Hd]].
    destruct (Hall i size Hd) as [label' [Hl' Hor]].
    fold grid in Hl. rewrite Hl in Hl'. inversion Hl'; subst label'.
    destruct (in_dec pair_Z_string_dec (size, label)
                (combine (mesh_dims grid_mid) (mesh_labels grid_mid))) as [Hm|Hm].
    - rewrite (Hmid label size Hm). eauto.
    - destruct Hor as [Hp|Hm']; [|contradiction].
      rewrite (Hprim label size Hp Hm). eauto. }
  destruct (mapM_all_ok _ _ (fun p : string * Z => lookup_get (build_lookup v) (fst p) (snd p))
              (combine (mesh_labels grid) (var_dims v))) as [names Hnames].
  { intros [label size] Hin. cbn [fst snd]. apply Hres, Hin. }
  exists names. split; [exact Hnames|]. split.
  - rewrite (mapM_ok_length _ _ _ _ _ Hnames), length_combine.
    apply Nat.min_r.
    destruct (Nat.le_gt_cases (length (var_dims v)) (length (mesh_labels grid)))
      as [Hle|Hgt]; [exact Hle|].
    exfalso.
    destruct (nth_error (var_dims v) (length (mesh_labels grid))) as [size|] eqn:Hd.
    + destruct (Hall _ size Hd) as [label [Hl _]].
      assert (Hnone : nth_error (mesh_labels grid) (length (mesh_labels grid)) = None)
        by (apply nth_error_None, Nat.le_refl).
      rewrite Hnone in Hl. discriminate Hl.
    + apply nth_error_None in Hd. lia.
  - intros i label size Hl Hd.
    pose proof (nth_error_combine _ _ _ _ _ _ _ Hl Hd) as Hp.
    destruct (mapM_ok_nth _ _ _ _ _ _ _ Hnames Hp) as [name [Hn Hg]].
    cbn [fst snd] in Hg. exists name. split; [exact Hn|]. split; [exact Hg|].
    split.
    + intros Hm. rewrite (Hmid label size Hm) in Hg. inversion Hg. reflexivity.
    + intros Hm. destruct (Hall i size Hd) as [label' [Hl' Hor]].
      fold grid in Hl. rewrite Hl in Hl'. inversion Hl'; subst label'.
      destruct Hor as [Hpr|Hm']; [|contradiction].
      rewrite (Hprim label size Hpr Hm) in Hg. inversion Hg. reflexivity.
Qed.

(** The resolver on the table of the variable itself: when every axis of
    the variable has a label and its (label, size) pair is on one of the
    two meshes, consuming the generator in a frame where [dim_size_lookup]
    is that table gives one coordinate name per axis, in the order of the
    axes, the staggered mesh's name where the staggered mesh has the pair
    and the primary mesh's name otherwise. *)
Theorem own_lookup_resolves (v : BlockPlainVariable) :
  let grid := var_grid v in
  let grid_mid := var_grid_mid v in
  (forall i size, nth_error (var_dims v) i = Some size ->
     exists label, nth_error (mesh_labels grid) i = Some label
       /\ (In (size, label) (combine (mesh_dims grid) (mesh_labels grid))
           \/ In (size, label) (combine (mesh_dims grid_mid) (mesh_labels grid_mid)))) ->
  exists names,
    consume (build_lookup v) (fst (fst (pending_of v))) = Ok names
    /\ length names = length (var_dims v)
    /\ (forall i label size,
          nth_error (mesh_labels grid) i = Some label ->
          nth_error (var_dims v) i = Some size ->
          exists name,
            nth_error names i = Some name
            /\ lookup_get (build_lookup v) label size = Ok name
            /\ (In (size, label) (combine (mesh_dims grid_mid) (mesh_labels grid_mid)) ->
                name = full_name label (base_name (mesh_name grid_mid)))
            /\ (~ In (size, label) (combine (mesh_dims grid_mid) (mesh_labels grid_mid)) ->
                name = full_name label (base_name (mesh_name grid)))).
Proof. exact (consume_own_lookup v). Qed.

Lemma mapM_realise_get (t : lookup) (l : dict pending_var) (out : dict data_var)
  (key : string) (g : var_coords_gen) (data : ndarray) (data_attrs : dict pyval) :
  mapM (realise t) l = Ok out ->
  dict_get key l = Some (g, data, data_attrs) ->
  exists names, consume t g = Ok names
                /\ dict_get key out = Some (names, data, data_attrs).
Proof.
  revert out. induction l as [|[k [[g1 d1] a1]] r IH]; cbn [mapM]; intros out Hm Hg;
    [discriminate|].
  unfold realise at 1 in Hm.
  destruct (consume t g1) as [dims|e] eqn:Hc; cbn [bind] in Hm; [|discriminate].
  destruct (mapM (realise t) r) as [os|e]; cbn [bind] in Hm; [|discriminate].
  inversion Hm; subst out. cbn [dict_get] in Hg |- *.
  destruct (keqb key k).
  - inversion Hg; subst. exists dims. split; [exact Hc|reflexivity].
  - apply IH; [reflexivity|exact Hg].
Qed.

(** The variable block visited last is the one whose table is in effect
    when the dataset is built: if the read succeeds, its dimensions in
    the dataset are the names its own table gives. *)
Theorem last_variable_resolves (l1 l2 : dict Block) (attrs0 : dict pyval)
  (key : string) (v : BlockPlainVariable) (ds : Dataset) :
  NoDup (dict_keys (l1 ++ (key, PlainVariable v) :: l2)) ->
  startswith_CPU key = false ->
  (forall k' v', In (k', PlainVariable v') l2 -> startswith_CPU k' = true) ->
  xr_Dataset (convert_blocks attrs0 (l1 ++ (key, PlainVariable v) :: l2)) = Ok ds ->
  exists names,
    consume (build_lookup v) (fst (fst (pending_of v))) = Ok names
    /\ dims_of ds key = Some names.
Proof.
  intros Hnd Hc Hlast Hx. unfold xr_Dataset, convert_blocks in Hx.
  rewrite (fold_visit_lookup_last l1 l2 (initial_frame attrs0) key v Hc Hlast) in Hx.
  destruct (mapM (realise (build_lookup v))
              (data_vars (fold_left visit (l1 ++ (key, PlainVariable v) :: l2)
                            (initial_frame attrs0)))) as [vars|e] eqn:Hm;
    cbn [bind] in Hx; [|discriminate].
  inversion Hx; subst ds. unfold dims_of. cbn [ds_data_vars].
  assert (Hget : dict_get key
                   (data_vars (fold_left visit (l1 ++ (key, PlainVariable v) :: l2)
                                 (initial_frame attrs0)))
                 = Some (pending_of v)).
  { apply fold_visit_data_vars_get; [exact Hnd| |exact Hc].
    apply in_or_app. right. left. reflexivity. }
  unfold pending_of in Hget |- *. cbn [fst].
  destruct (mapM_realise_get _ _ _ _ _ _ _ Hm Hget) as [names [Hn Hd]].
  exists names. split; [exact Hn|]. rewrite Hd. reflexivity.
Qed.

(** C5 on the code.  The variable "Electric Field/Ex" has one axis, "X"
    of size 128, which its staggered mesh has; its own table resolves it
    to [X_Grid_mid], and so does the read of a file in which it is the
    last variable.  When a variable on another pair of meshes follows, the
    generator of the earlier variable is consumed in a frame where
    [dim_size_lookup] is the table of the later one: with meshes of other
    sizes the read ends with [KeyError], with meshes of the same sizes the
    earlier variable is given the coordinate of the later variable's
    mesh. *)
Theorem earlier_variable_meets_later_lookup :
  consume (build_lookup Samples.Ex) (fst (fst (pending_of Samples.Ex)))
  = Ok ["X_Grid_mid"]
  /\ (exists ds, open_sdf_dataset Samples.one_file None = Ok ds
                 /\ dims_of ds "Electric Field/Ex" = Some ["X_Grid_mid"])
  /\ open_sdf_dataset Samples.rho_file None = Raise (KeyError (KInt 128))
  /\ (exists ds, open_sdf_dataset Samples.temp_file None = Ok ds
                 /\ dims_of ds "Electric Field/Ex" = Some ["X_Fine_mid"]
                 /\ dims_of ds "Derived/Temp" = Some ["X_Fine_mid"]
                 /\ dict_keys (ds_coords ds)
                    = ["X_Grid"; "X_Grid_mid"; "X_Fine"; "X_Fine_mid"]).
Proof.
  split; [vm_compute; reflexivity|]. split; [|split].
  - eexists. split; vm_compute; reflexivity.
  - vm_compute. reflexivity.
  - eexists. repeat split; vm_compute; reflexivity.
Qed.

(* ================================================================== *)
(** * The loop in closed form *)

Section DictUpdateFacts.
Context {K : Type} `{EqKey K} {V : Type}.
Implicit Types (d e : list (K * V)) (k : K) (v : V).

Lemma dict_update_app d e1 e2 :
  dict_update d (e1 ++ e2) = dict_update (dict_update d e1) e2.
Proof. unfold dict_update. apply fold_left_app. Qed.

Lemma dict_set_fresh k v d :
  ~ In k (dict_keys d) -> dict_set k v d = d ++ [(k, v)].
Proof.
  induction d as [|[k1 v1] r IH]; simpl; intros Hn; [reflexivity|].
  destruct (keqb_spec k k1) as [->|Hne]; [exfalso; apply Hn; left; reflexivity|].
  rewrite IH; [reflexivity|]. intros Hin. apply Hn. right. exact Hin.
Qed.

Lemma dict_update_fresh d e :
  NoDup (dict_keys (d ++ e)) -> dict_update d e = d ++ e.
Proof.
  revert d. induction e as [|[k v] r IH]; intros d Hnd.
  - rewrite app_nil_r. reflexivity.
  - change (dict_update d ((k, v) :: r)) with (dict_update (dict_set k v d) r).
    assert (Hk : ~ In k (dict_keys d)).
    { unfold dict_keys in Hnd |- *. rewrite map_app in Hnd. cbn [map fst] in Hnd.
      apply NoDup_remove_2 in Hnd. intros Hin. apply Hnd.
      apply in_or_app. left. exact Hin. }
    rewrite (dict_set_fresh k v d Hk).
    rewrite IH; rewrite <- app_assoc; [reflexivity|exact Hnd].
Qed.

Lemma dict_set_In k v d k' v' :
  In (k', v') (dict_set k v d) -> (k' = k /\ v' = v) \/ In (k', v') d.
Proof.
  induction d as [|[k1 v1] r IH]; simpl.
  - intros [Heq|[]]. inversion Heq. auto.
  - destruct (keqb_spec k k1) as [->|Hne]; simpl.
    + intros [Heq|Hin]; [inversion Heq; auto|auto].
    + intros [Heq|Hin]; [auto|]. destruct (IH Hin); auto.
Qed.

Lemma dict_update_In d e k v :
  In (k, v) (dict_update d e) -> In (k, v) d \/ In (k, v) e.
Proof.
  unfold dict_update. revert d.
  induction e as [|[k1 v1] r IH]; cbn [fold_left fst snd]; intros d Hin; [auto|].
  destruct (IH _ Hin) as [Hd|Hr]; [|right; right; exact Hr].
  destruct (dict_set_In _ _ _ _ _ Hd) as [[-> ->]|Hd']; [right; left; reflexivity|auto].
Qed.
End DictUpdateFacts.

Lemma fold_visit_attrs (l : dict Block) (fr : Frame) :
  attrs (fold_left visit l fr) = dict_update (attrs fr) (kept_constants l).
Proof.
  revert fr. induction l as [|[key value] r IH]; intros fr; [reflexivity|].
  cbn [fold_left]. rewrite IH. unfold kept_constants at 2.
  cbn [flat_map fst snd]. fold (kept_constants r). rewrite dict_update_app.
  unfold visit. destruct (startswith_CPU key); [reflexivity|].
  destruct value; reflexivity.
Qed.

Lemma fold_visit_coords (l : dict Block) (fr : Frame) :
  coords (fold_left visit l fr) = dict_update (coords fr) (kept_mesh_coords l).
Proof.
  revert fr. induction l as [|[key value] r IH]; intros fr; [reflexivity|].
  cbn [fold_left]. rewrite IH. unfold kept_mesh_coords at 2.
  cbn [flat_map fst snd]. fold (kept_mesh_coords r). rewrite dict_update_app.
  unfold visit. destruct (startswith_CPU key); [reflexivity|].
  destruct value; reflexivity.
Qed.

(** The pending entry of each kept variable. *)
Lemma fold_visit_data_vars (l : dict Block) (fr : Frame) :
  data_vars (fold_left visit l fr)
  = dict_update (data_vars fr)
      (map (fun kv : string * BlockPlainVariable => (fst kv, pending_of (snd kv)))
           (kept_variables l)).
Proof.
  revert fr. induction l as [|[key value] r IH]; intros fr; [reflexivity|].
  cbn [fold_left]. rewrite IH. unfold kept_variables at 2.
  cbn [flat_map fst snd]. fold (kept_variables r). rewrite map_app, dict_update_app.
  unfold visit. destruct (startswith_CPU key); [reflexivity|].
  destruct value; reflexivity.
Qed.

Lemma kept_variables_In (l : dict Block) (key : string) (v : BlockPlainVariable) :
  In (key, v) (kept_variables l)
  <-> In (key, PlainVariable v) l /\ startswith_CPU key = false.
Proof.
  unfold kept_variables. rewrite in_flat_map. split.
  - intros [[k b] [Hin Hx]]. cbn [fst snd] in Hx.
    destruct (startswith_CPU k) eqn:Hc; [contradiction|].
    destruct b; try contradiction. destruct Hx as [Heq|[]].
    inversion Heq; subst. auto.
  - intros [Hin Hc]. exists (key, PlainVariable v). split; [exact Hin|].
    cbn [fst snd]. rewrite Hc. left. reflexivity.
Qed.

Lemma kept_constants_In (l : dict Block) (key : string) (c : pyval) :
  In (key, c) (kept_constants l)
  <-> In (key, BlockConstant c) l /\ startswith_CPU key = false.
Proof.
  unfold kept_constants. rewrite in_flat_map. split.
  - intros [[k b] [Hin Hx]]. cbn [fst snd] in Hx.
    destruct (startswith_CPU k) eqn:Hc; [contradiction|].
    destruct b; try contradiction. destruct Hx as [Heq|[]].
    inversion Heq; subst. auto.
  - intros [Hin Hc]. exists (key, BlockConstant c). split; [exact Hin|].
    cbn [fst snd]. rewrite Hc. left. reflexivity.
Qed.

Lemma kept_mesh_coords_In (l : dict Block) (entry : string * coord_tuple) :
  In entry (kept_mesh_coords l)
  <-> exists key m, In (key, PlainMesh m) l /\ startswith_CPU key = false
                    /\ In entry (mesh_coords key m).
Proof.
  unfold kept_mesh_coords. rewrite in_flat_map. split.
  - intros [[k b] [Hin Hx]]. cbn [fst snd] in Hx.
    destruct (startswith_CPU k) eqn:Hc; [contradiction|].
    destruct b; try contradiction. eauto.
  - intros [key [m [Hin [Hc Hx]]]]. exists (key, PlainMesh m). split; [exact Hin|].
    cbn [fst snd]. rewrite Hc. exact Hx.
Qed.

Lemma kept_variables_keys_NoDup (l : dict Block) :
  NoDup (dict_keys l) -> NoDup (dict_keys (kept_variables l)).
Proof.
  induction l as [|[key value] r IH]; intros Hnd; [constructor|].
  unfold dict_keys in Hnd. cbn [map fst] in Hnd.
  inversion Hnd as [|? ? Hnin Hr]; subst.
  unfold kept_variables. cbn [flat_map fst snd]. fold (kept_variables r).
  assert (Hsub : forall k, In k (dict_keys (kept_variables r)) -> In k (map fst r)).
  { intros k Hin. unfold dict_keys in Hin. apply in_map_iff in Hin.
    destruct Hin as [[k' v] [Heq Hin]]. cbn [fst] in Heq. subst k'.
    apply kept_variables_In in Hin. destruct Hin as [Hin _].
    apply (in_map fst) in Hin. exact Hin. }
  destruct (startswith_CPU key); [exact (IH Hr)|].
  destruct value; try exact (IH Hr).
  cbn [app]. unfold dict_keys. cbn [map fst]. constructor; [|exact (IH Hr)].
  intros Hin. apply Hnin, Hsub, Hin.
Qed.

Lemma kept_constants_keys_NoDup (l : dict Block) :
  NoDup (dict_keys l) -> NoDup (dict_keys (kept_constants l)).
Proof.
  induction l as [|[key value] r IH]; intros Hnd; [constructor|].
  unfold dict_keys in Hnd. cbn [map fst] in Hnd.
  inversion Hnd as [|? ? Hnin Hr]; subst.
  unfold kept_constants. cbn [flat_map fst snd]. fold (kept_constants r).
  assert (Hsub : forall k, In k (dict_keys (kept_constants r)) -> In k (map fst r)).
  { intros k Hin. unfold dict_keys in Hin. apply in_map_iff in Hin.
    destruct Hin as [[k' c] [Heq Hin]]. cbn [fst] in Heq. subst k'.
    apply kept_constants_In in Hin. destruct Hin as [Hin _].
    apply (in_map fst) in Hin. exact Hin. }
  destruct (startswith_CPU key); [exact (IH Hr)|].
  destruct value; try exact (IH Hr).
  cbn [app]. unfold dict_keys. cbn [map fst]. constructor; [|exact (IH Hr)].
  intros Hin. apply Hnin, Hsub, Hin.
Qed.

Lemma blocks_of_NoDup (data : dict Block) :
  NoDup (dict_keys data) -> NoDup (dict_keys (blocks_of data)).
Proof. intros Hnd. unfold blocks_of. apply dict_remove_NoDup, dict_remove_NoDup, Hnd. Qed.

Lemma blocks_of_In (data : dict Block) (key : string) (value : Block) :
  In (key, value) (blocks_of data)
  <-> In (key, value) data /\ key <> "Header" /\ key <> "Run_info".
Proof.
  unfold blocks_of. rewrite !dict_remove_In. tauto.
Qed.

(** What a successful read returns, in terms of the mapping left by the
    exclusion step. *)
Lemma open_ok_frame (data : dict Block) (drop_variables : option (list string))
  (data1 : dict Block) (ds : Dataset) :
  drop_requested drop_variables data = Ok data1 ->
  open_sdf_dataset data drop_variables = Ok ds ->
  exists attrs0,
    read_metadata data1 = Ok (attrs0, blocks_of data1)
    /\ xr_Dataset (convert_blocks attrs0 (blocks_of data1)) = Ok ds.
Proof.
  intros Hdrop Hopen. destruct (open_ok _ _ _ Hopen) as [d [attrs0 [Hd [Hm Hx]]]].
  rewrite Hdrop in Hd. inversion Hd; subst d. exists attrs0. split; assumption.
Qed.

Lemma read_metadata_ok_inv (data : dict Block) (attrs0 : dict pyval) (rest : dict Block) :
  read_metadata data = Ok (attrs0, rest) ->
  exists h r,
    get_or_empty "Header" data = PyDict h
    /\ get_or_empty "Run_info" data = PyDict r
    /\ attrs0 = dict_update (dict_update [] h) r.
Proof.
  rewrite read_metadata_eq.
  destruct (get_or_empty "Header" data) as [h| | | |]; cbn [attrs_update bind];
    try discriminate.
  destruct (get_or_empty "Run_info" data) as [r| | | |]; cbn [attrs_update bind];
    try discriminate.
  intros Hok. inversion Hok. exists h, r. auto.
Qed.

Lemma convert_data_vars (attrs0 : dict pyval) (rest : dict Block) :
  NoDup (dict_keys rest) ->
  data_vars (convert_blocks attrs0 rest)
  = map (fun kv : string * BlockPlainVariable => (fst kv, pending_of (snd kv)))
        (kept_variables rest).
Proof.
  intros Hnd. unfold convert_blocks. rewrite fold_visit_data_vars.
  cbn [initial_frame data_vars]. apply (dict_update_fresh []). cbn [app].
  unfold dict_keys. rewrite map_map. cbn [fst].
  apply (kept_variables_keys_NoDup rest Hnd).
Qed.

Lemma mapM_realise_In (t : lookup) (l : dict pending_var) (out : dict data_var)
  (key : string) (dims : list string) (data : ndarray) (data_attrs : dict pyval) :
  mapM (realise t) l = Ok out ->
  In (key, (dims, data, data_attrs)) out ->
  exists g, In (key, (g, data, data_attrs)) l /\ consume t g = Ok dims.
Proof.
  revert out. induction l as [|[k [[g1 d1] a1]] r IH]; cbn [mapM]; intros out Hm Hin.
  - inversion Hm; subst. contradiction.
  - unfold realise at 1 in Hm.
    destruct (consume t g1) as [dims1|e] eqn:Hc; cbn [bind] in Hm; [|discriminate].
    destruct (mapM (realise t) r) as [os|e]; cbn [bind] in Hm; [|discriminate].
    inversion Hm; subst out. destruct Hin as [Heq|Hin].
    + inversion Heq; subst. exists g1. split; [left; reflexivity|exact Hc].
    + destruct (IH os eq_refl Hin) as [g [Hg Hcg]]. exists g. split; [right; exact Hg|exact Hcg].
Qed.

(** The data variables of a dataset are the plain-variable blocks that
    are not bookkeeping blocks, in the order of the mapping: each keeps
    the block's name, carries the block's data array and the single
    attribute units, and has one dimension per pair of
    [zip(value.grid.labels, value.dims)]. *)
Theorem data_variables_of_dataset (data : dict Block)
  (drop_variables : option (list string)) (data1 : dict Block) (ds : Dataset) :
  NoDup (dict_keys data) ->
  drop_requested drop_variables data = Ok data1 ->
  open_sdf_dataset data drop_variables = Ok ds ->
  dict_keys (ds_data_vars ds) = dict_keys (kept_variables (blocks_of data1))
  /\ (forall key v,
        In (key, PlainVariable v) data1 -> startswith_CPU key = false ->
        key <> "Header" -> key <> "Run_info" ->
        exists dims,
          dict_get key (ds_data_vars ds)
          = Some (dims, var_data v, [("units", PyStr (var_units v))]))
  /\ (forall key dims d a,
        In (key, (dims, d, a)) (ds_data_vars ds) ->
        exists v,
          In (key, PlainVariable v) data1 /\ startswith_CPU key = false
          /\ d = var_data v /\ a = [("units", PyStr (var_units v))]
          /\ length dims
             = Nat.min (length (mesh_labels (var_grid v))) (length (var_dims v))).
Proof.
  intros Hnd Hdrop Hopen.
  destruct (open_ok_frame _ _ _ _ Hdrop Hopen) as [attrs0 [_ Hx]].
  pose proof (blocks_of_NoDup _ (drop_requested_NoDup _ _ _ Hnd Hdrop)) as Hrest.
  unfold xr_Dataset in Hx.
  rewrite (convert_data_vars attrs0 _ Hrest) in Hx.
  destruct (mapM (realise (dim_size_lookup (convert_blocks attrs0 (blocks_of data1))))
              (map (fun kv : string * BlockPlainVariable => (fst kv, pending_of (snd kv)))
                   (kept_variables (blocks_of data1)))) as [vars|e] eqn:Hm;
    cbn [bind] in Hx; [|discriminate].
  inversion Hx; subst ds. cbn [ds_data_vars]. split; [|split].
  - rewrite (mapM_realise_keys _ _ _ Hm). unfold dict_keys. rewrite map_map. reflexivity.
  - intros key v Hin Hc Hh Hr.
    assert (Hget : dict_get key
                     (map (fun kv : string * BlockPlainVariable =>
                             (fst kv, pending_of (snd kv)))
                          (kept_variables (blocks_of data1)))
                   = Some (pending_of v)).
    { apply In_dict_get.
      - unfold dict_keys. rewrite map_map. cbn [fst].
        apply (kept_variables_keys_NoDup _ Hrest).
      - apply in_map_iff. exists (key, v). split; [reflexivity|].
        apply kept_variables_In. split; [|exact Hc].
        apply blocks_of_In. auto. }
    unfold pending_of in Hget.
    destruct (mapM_realise_get _ _ _ _ _ _ _ Hm Hget) as [names [_ Hd]].
    exists names. exact Hd.
  - intros key dims d a Hin.
    destruct (mapM_realise_In _ _ _ _ _ _ _ Hm Hin) as [g [Hg Hc]].
    apply in_map_iff in Hg. destruct Hg as [[k v] [Heq Hkv]].
    cbn [fst snd] in Heq. unfold pending_of in Heq. inversion Heq; subst.
    apply kept_variables_In in Hkv. destruct Hkv as [Hkv Hcpu].
    apply blocks_of_In in Hkv. destruct Hkv as [Hkv _].
    exists v. split; [exact Hkv|]. split; [exact Hcpu|].
    split; [reflexivity|]. split; [reflexivity|].
    unfold consume in Hc. cbn [gen_pairs] in Hc.
    rewrite (mapM_ok_length _ _ _ _ _ Hc). apply length_combine.
Qed.

Lemma data_variables_of_dataset_witness :
  let data := Samples.one_file in
  NoDup (dict_keys data)
  /\ drop_requested (Some ["Wall-time"]) data = Ok (dict_remove "Wall-time" data)
  /\ exists ds,
       open_sdf_dataset data (Some ["Wall-time"]) = Ok ds
       /\ dict_keys (ds_data_vars ds) = ["Electric Field/Ex"]
       /\ exists dims,
            dict_get "Electric Field/Ex" (ds_data_vars ds)
            = Some (dims, var_data Samples.Ex, [("units", PyStr "V/m")]).
Proof.
  intros data.
  assert (Hnd : NoDup (dict_keys data)).
  { vm_compute.
    repeat (constructor;
            [intros H; repeat (destruct H as [H|H]; [discriminate H|]); exact H|]).
    constructor. }
  assert (Hdrop : drop_requested (Some ["Wall-time"]) data
                  = Ok (dict_remove "Wall-time" data)) by reflexivity.
  split; [exact Hnd|]. split; [exact Hdrop|].
  eexists. split; [vm_compute; reflexivity|].
  destruct (data_variables_of_dataset data (Some ["Wall-time"]) _ _ Hnd Hdrop eq_refl)
    as [Hkeys [Hget _]].
  split; [exact Hkeys|].
  apply (Hget "Electric Field/Ex" Samples.Ex).
  - vm_compute. tauto.
  - reflexivity.
  - discriminate.
  - discriminate.
Defined.

(** The attributes of a dataset are Header's entries, updated with
    Run_info's, updated with the constant blocks in the order of the
    mapping: the attribute keys are the keys of the two metadata dicts and
    the names of the constant blocks that are not bookkeeping blocks, and
    such a constant's value is the attribute of its name, whatever Header
    or Run_info hold under that key. *)
Theorem attributes_of_dataset (data : dict Block)
  (drop_variables : option (list string)) (data1 : dict Block) (ds : Dataset) :
  drop_requested drop_variables data = Ok data1 ->
  open_sdf_dataset data drop_variables = Ok ds ->
  exists h r,
    get_or_empty "Header" data1 = PyDict h
    /\ get_or_empty "Run_info" data1 = PyDict r
    /\ ds_attrs ds
       = dict_update (dict_update (dict_update [] h) r)
           (kept_constants (blocks_of data1))
    /\ (forall k, In k (dict_keys (ds_attrs ds))
                  <-> In k (dict_keys h) \/ In k (dict_keys r)
                      \/ exists c, In (k, BlockConstant c) data1
                                   /\ startswith_CPU k = false
                                   /\ k <> "Header" /\ k <> "Run_info")
    /\ (NoDup (dict_keys data) ->
        forall k c,
          In (k, BlockConstant c) data1 -> startswith_CPU k = false ->
          k <> "Header" -> k <> "Run_info" ->
          dict_get k (ds_attrs ds) = Some c).
Proof.
  intros Hdrop Hopen.
  destruct (open_ok_frame _ _ _ _ Hdrop Hopen) as [attrs0 [Hm Hx]].
  destruct (read_metadata_ok_inv _ _ _ Hm) as [h [r [Hh [Hr Ha]]]].
  destruct (xr_Dataset_ok _ _ Hx) as [_ [_ Hattrs]].
  assert (Hclosed : ds_attrs ds
                    = dict_update (dict_update (dict_update [] h) r)
                        (kept_constants (blocks_of data1))).
  { rewrite Hattrs. unfold convert_blocks. rewrite fold_visit_attrs.
    cbn [initial_frame attrs]. rewrite Ha. reflexivity. }
  exists h, r. split; [exact Hh|]. split; [exact Hr|]. split; [exact Hclosed|].
  split.
  - intros k. rewrite Hclosed, !dict_update_keys. cbn [dict_keys map In].
    assert (Hconst : In k (dict_keys (kept_constants (blocks_of data1)))
                     <-> exists c, In (k, BlockConstant c) data1
                                   /\ startswith_CPU k = false
                                   /\ k <> "Header" /\ k <> "Run_info").
    { unfold dict_keys. rewrite in_map_iff. split.
      - intros [[k' c] [Heq Hin]]. cbn [fst] in Heq. subst k'.
        apply kept_constants_In in Hin. destruct Hin as [Hin Hc].
        apply blocks_of_In in Hin. exists c. tauto.
      - intros [c [Hin [Hc [H1 H2]]]]. exists (k, c). split; [reflexivity|].
        apply kept_constants_In. split; [|exact Hc]. apply blocks_of_In. tauto. }
    rewrite Hconst. tauto.
  - intros Hnd k c Hin Hc H1 H2. rewrite Hclosed.
    pose proof (blocks_of_NoDup _ (drop_requested_NoDup _ _ _ Hnd Hdrop)) as Hrest.
    apply dict_get_update_in.
    + apply (kept_constants_keys_NoDup _ Hrest).
    + apply In_dict_get; [apply (kept_constants_keys_NoDup _ Hrest)|].
      apply kept_constants_In. split; [|exact Hc]. apply blocks_of_In. tauto.
Qed.

Lemma attributes_of_dataset_witness :
  let data := [("Header", PyDict [("time", PyFloat 1.0%float); ("step", PyInt 7)]);
               ("time", BlockConstant (PyFloat 3.0%float));
               ("CPU/Ranks", BlockConstant (PyInt 4))] in
  NoDup (dict_keys data)
  /\ drop_requested None data = Ok data
  /\ exists ds,
       open_sdf_dataset data None = Ok ds
       /\ ds_attrs ds = [("time", PyFloat 3.0%float); ("step", PyInt 7)]
       /\ dict_get "time" (ds_attrs ds) = Some (PyFloat 3.0%float).
Proof.
  intros data.
  assert (Hnd : NoDup (dict_keys data)).
  { vm_compute.
    repeat (constructor;
            [intros H; repeat (destruct H as [H|H]; [discriminate H|]); exact H|]).
    constructor. }
  split; [exact Hnd|]. split; [reflexivity|].
  eexists. split; [vm_compute; reflexivity|]. split; [reflexivity|].
  destruct (attributes_of_dataset data None data _ eq_refl eq_refl)
    as [h [r [_ [_ [_ [_ Hconst]]]]]].
  apply (Hconst Hnd "time" (PyFloat 3.0%float)).
  - vm_compute. tauto.
  - reflexivity.
  - discriminate.
  - discriminate.
Defined.

Lemma mesh_coords_shape (key : string) (m : BlockPlainMesh) (name dim : string)
  (coord : ndarray) (a : dict pyval) :
  In (name, (dim, coord, a)) (mesh_coords key m) ->
  dim = name
  /\ exists label unit,
       name = full_name label (base_name key)
       /\ a = [("long_name", PyStr label); ("units", PyStr unit)]
       /\ In label (mesh_labels m) /\ In coord (mesh_data m) /\ In unit (mesh_units m).
Proof.
  unfold mesh_coords. rewrite in_map_iff.
  intros [[label [coord' unit]] [Heq Hin]]. inversion Heq; subst.
  split; [reflexivity|]. exists label, unit.
  pose proof (in_combine_l _ _ _ _ Hin) as Hl.
  pose proof (in_combine_r _ _ _ _ Hin) as Hcu.
  pose proof (in_combine_l _ _ _ _ Hcu) as Hc.
  pose proof (in_combine_r _ _ _ _ Hcu) as Hu.
  auto 6.
Qed.

(** The coordinates of a dataset are what the mesh blocks wrote, a later
    entry of the same name replacing an earlier one: the coordinate names
    are exactly the names label_base of the axes of the mesh blocks that
    are not bookkeeping blocks, and every coordinate is one-dimensional
    along the dimension of its own name, holds an array of such a mesh and
    carries the two attributes long_name and units of one of its axes. *)
Theorem coordinates_of_dataset (data : dict Block)
  (drop_variables : option (list string)) (data1 : dict Block) (ds : Dataset) :
  drop_requested drop_variables data = Ok data1 ->
  open_sdf_dataset data drop_variables = Ok ds ->
  ds_coords ds = dict_update [] (kept_mesh_coords (blocks_of data1))
  /\ (forall name,
        In name (dict_keys (ds_coords ds))
        <-> exists key m,
              In (key, PlainMesh m) data1 /\ startswith_CPU key = false
              /\ key <> "Header" /\ key <> "Run_info"
              /\ In name (dict_keys (mesh_coords key m)))
  /\ (forall name dim coord a,
        In (name, (dim, coord, a)) (ds_coords ds) ->
        dim = name
        /\ exists key m label unit,
             In (key, PlainMesh m) data1 /\ startswith_CPU key = false
             /\ name = full_name label (base_name key)
             /\ a = [("long_name", PyStr label); ("units", PyStr unit)]
             /\ In label (mesh_labels m) /\ In coord (mesh_data m)
             /\ In unit (mesh_units m)).
Proof.
  intros Hdrop Hopen.
  destruct (open_ok_frame _ _ _ _ Hdrop Hopen) as [attrs0 [_ Hx]].
  destruct (xr_Dataset_ok _ _ Hx) as [_ [Hco _]].
  assert (Hclosed : ds_coords ds = dict_update [] (kept_mesh_coords (blocks_of data1))).
  { rewrite Hco. unfold convert_blocks. rewrite fold_visit_coords. reflexivity. }
  split; [exact Hclosed|]. split.
  - intros name. rewrite Hclosed, dict_update_keys. cbn [dict_keys map In].
    unfold dict_keys. rewrite in_map_iff. split.
    + intros [[]|[entry [Heq Hin]]].
      apply kept_mesh_coords_In in Hin. destruct Hin as [key [m [Hin [Hc Hm]]]].
      apply blocks_of_In in Hin. exists key, m.
      repeat split; try tauto. apply in_map_iff. exists entry. auto.
    + intros [key [m [Hin [Hc [H1 [H2 Hn]]]]]]. right.
      apply in_map_iff in Hn. destruct Hn as [entry [Heq Hm]].
      exists entry. split; [exact Heq|].
      apply kept_mesh_coords_In. exists key, m. split; [|auto].
      apply blocks_of_In. auto.
  - intros name dim coord a Hin. rewrite Hclosed in Hin.
    apply dict_update_In in Hin. destruct Hin as [[]|Hin].
    apply kept_mesh_coords_In in Hin. destruct Hin as [key [m [Hin [Hc Hm]]]].
    apply blocks_of_In in Hin. destruct Hin as [Hin _].
    destruct (mesh_coords_shape _ _ _ _ _ _ Hm)
      as [Hdim [label [unit [Hn [Ha [Hl [Hd Hu]]]]]]].
    split; [exact Hdim|]. exists key, m, label, unit. auto 8.
Qed.

Lemma coordinates_of_dataset_witness :
  let data := Samples.same_base in
  drop_requested None data = Ok data
  /\ exists ds,
       open_sdf_dataset data None = Ok ds
       /\ ds_coords ds = dict_update [] (kept_mesh_coords (blocks_of data))
       /\ ds_coords ds
          = [("X_G", ("X_G", Samples.arr 7,
                      [("long_name", PyStr "X"); ("units", PyStr "m")]))].
Proof.
  intros data. split; [reflexivity|].
  eexists. split; [vm_compute; reflexivity|].
  destruct (coordinates_of_dataset data None data _ eq_refl eq_refl) as [Hclosed _].
  split; [exact Hclosed|reflexivity].
Defined.

Lemma own_lookup_resolves_witness :
  let v := Samples.Ex in
  (forall i size, nth_error (var_dims v) i = Some size ->
     exists label, nth_error (mesh_labels (var_grid v)) i = Some label
       /\ (In (size, label)
             (combine (mesh_dims (var_grid v)) (mesh_labels (var_grid v)))
           \/ In (size, label)
                (combine (mesh_dims (var_grid_mid v)) (mesh_labels (var_grid_mid v)))))
  /\ exists names,
       consume (build_lookup v) (fst (fst (pending_of v))) = Ok names
       /\ length names = length (var_dims v).
Proof.
  intros v.
  assert (Hall : forall i size, nth_error (var_dims v) i = Some size ->
     exists label, nth_error (mesh_labels (var_grid v)) i = Some label
       /\ (In (size, label)
             (combine (mesh_dims (var_grid v)) (mesh_labels (var_grid v)))
           \/ In (size, label)
                (combine (mesh_dims (var_grid_mid v)) (mesh_labels (var_grid_mid v))))).
  { intros [|[|i]] size Hn; simpl in Hn; try discriminate Hn.
    inversion Hn; subst size. exists "X". split; [reflexivity|].
    right. simpl. left. reflexivity. }
  split; [exact Hall|].
  destruct (own_lookup_resolves v Hall) as [names [Hc [Hlen _]]].
  exists names. split; [exact Hc|exact Hlen].
Defined.

Lemma last_variable_resolves_witness :
  let l1 := [("Grid/Sub", PlainMesh Samples.Sub);
             ("Grid/Sub_mid", PlainMesh Samples.Sub_mid)] in
  let l2 := [("CPU/Current rank", PlainVariable Samples.Rank)] in
  let data := l1 ++ ("Derived/Rho", PlainVariable Samples.Rho) :: l2 in
  NoDup (dict_keys data)
  /\ startswith_CPU "Derived/Rho" = false
  /\ (forall k' v', In (k', PlainVariable v') l2 -> startswith_CPU k' = true)
  /\ exists ds names,
       xr_Dataset (convert_blocks [] data) = Ok ds
       /\ consume (build_lookup Samples.Rho) (fst (fst (pending_of Samples.Rho)))
          = Ok names
       /\ dims_of ds "Derived/Rho" = Some names.
Proof.
  intros l1 l2 data.
  assert (Hnd : NoDup (dict_keys data)).
  { vm_compute.
    repeat (constructor;
            [intros H; repeat (destruct H as [H|H]; [discriminate H|]); exact H|]).
    constructor. }
  assert (Hl2 : forall k' v', In (k', PlainVariable v') l2 -> startswith_CPU k' = true).
  { intros k' v' [Heq|[]]. inversion Heq. reflexivity. }
  split; [exact Hnd|]. split; [reflexivity|]. split; [exact Hl2|].
  destruct (xr_Dataset (convert_blocks [] data)) as [ds|e] eqn:Hx;
    [|vm_compute in Hx; discriminate Hx].
  destruct (last_variable_resolves l1 l2 [] "Derived/Rho" Samples.Rho ds
              Hnd eq_refl Hl2 Hx) as [names [Hc Hd]].
  exists ds, names. split; [reflexivity|]. split; [exact Hc|exact Hd].
Defined.

(* ================================================================== *)
(** * Blocks of a kind the loop has no branch for *)

Lemma handled_cons (key : string) (value : Block) (l : dict Block) :
  filter handled ((key, value) :: l)
  = if handled (key, value) then (key, value) :: filter handled l
    else filter handled l.
Proof. reflexivity. Qed.

Lemma visit_unhandled (fr : Frame) (item : string * Block) :
  handled item = false -> visit fr item = fr.
Proof.
  destruct item as [key value]. unfold handled. cbn [fst snd].
  intros Hh. apply orb_false_iff in Hh. destruct Hh as [_ Hv].
  unfold visit. destruct (startswith_CPU key); [reflexivity|].
  destruct value; try discriminate Hv; reflexivity.
Qed.

Lemma fold_visit_skips_unhandled (l : dict Block) (fr : Frame) :
  fold_left visit (filter handled l) fr = fold_left visit l fr.
Proof.
  revert fr. induction l as [|[key value] r IH]; intros fr; [reflexivity|].
  rewrite handled_cons. destruct (handled (key, value)) eqn:Hh; cbn [fold_left].
  - apply IH.
  - rewrite (visit_unhandled fr (key, value) Hh). apply IH.
Qed.

Lemma dict_get_skips_unhandled (key : string) (l : dict Block) :
  key = "Header" \/ key = "Run_info" ->
  dict_get key (filter handled l) = dict_get key l.
Proof.
  intros Hk. induction l as [|[k1 v1] r IH]; [reflexivity|].
  rewrite handled_cons. destruct (handled (k1, v1)) eqn:Hh; cbn [dict_get].
  - rewrite IH. reflexivity.
  - destruct (keqb_spec key k1) as [Heq|_]; [|exact IH].
    exfalso. subst k1. unfold handled in Hh. cbn [fst] in Hh.
    destruct Hk as [-> | ->]; discriminate Hh.
Qed.

Lemma assemble_skips_unhandled (data : dict Block) :
  assemble (filter handled data) = assemble data.
Proof.
  rewrite !assemble_eq, !get_or_empty_unfold.
  rewrite (dict_get_skips_unhandled "Header" data (or_introl eq_refl)).
  rewrite (dict_get_skips_unhandled "Run_info" data (or_intror eq_refl)).
  unfold dict_remove.
  rewrite (filter_swap _ _ handled data), (filter_swap _ _ handled).
  unfold convert_blocks.
  destruct (attrs_update []
              match dict_get "Header" data with
              | Some value => value
              | None => PyDict []
              end) as [attrs1|e]; cbn [bind]; [|reflexivity].
  destruct (attrs_update attrs1
              match dict_get "Run_info" data with
              | Some value => value
              | None => PyDict []
              end) as [attrs2|e]; cbn [bind]; [|reflexivity].
  rewrite fold_visit_skips_unhandled. reflexivity.
Qed.

(** A block that is neither a constant, a plain mesh nor a plain variable
    (a point mesh, a point variable, a plain dict under a name other than
    "Header" and "Run_info", ...) leaves no trace and raises nothing: the
    outcome of the read, a dataset or an exception, is the outcome of the
    read of the mapping without such blocks. *)
Theorem unhandled_blocks_ignored (data : dict Block)
  (drop_variables : option (list string)) :
  open_sdf_dataset data drop_variables
  = (data1 <- drop_requested drop_variables data ;;
     assemble (filter handled data1))
  /\ open_sdf_dataset data None = open_sdf_dataset (filter handled data) None.
Proof.
  split.
  - unfold open_sdf_dataset.
    destruct (drop_requested drop_variables data) as [data1|e]; cbn [bind];
      [|reflexivity].
    symmetry. apply assemble_skips_unhandled.
  - unfold open_sdf_dataset. cbn [drop_requested bind].
    symmetry. apply assemble_skips_unhandled.
Qed.

(* ================================================================== *)
(** * The exceptions of a read *)

Lemma pop_each_raises (names : list string) (data : dict Block) (e : exn) :
  pop_each names data = Raise e ->
  exists n, In n names /\ e = KeyError (KStr n).
Proof.
  revert data. induction names as [|a r IH]; cbn [pop_each]; intros data Hp;
    [discriminate|].
  destruct (dict_mem a data).
  - destruct (IH _ Hp) as [n [Hn He]]. exists n. split; [right; exact Hn|exact He].
  - inversion Hp. exists a. split; [left; reflexivity|reflexivity].
Qed.

Lemma read_metadata_raises (data : dict Block) (e : exn) :
  read_metadata data = Raise e ->
  e = TypeError
  /\ exists key b,
       (key = "Header" \/ key = "Run_info")
       /\ dict_get key data = Some b /\ forall d, b <> PyDict d.
Proof.
  rewrite read_metadata_eq, !get_or_empty_unfold.
  destruct (dict_get "Header" data) as [b|] eqn:Hh.
  - destruct b as [h| | | |]; cbn [attrs_update bind];
      try (intros Hr; inversion Hr; split; [reflexivity|];
           exists "Header"; eexists; split; [left; reflexivity|];
           split; [exact Hh|intros d Hd; discriminate Hd]).
    destruct (dict_get "Run_info" data) as [b|] eqn:Hr.
    + destruct b as [r| | | |]; cbn [attrs_update bind]; try discriminate;
        intros Hx; inversion Hx; (split; [reflexivity|]);
        exists "Run_info"; eexists; (split; [right; reflexivity|]);
        (split; [exact Hr|intros d Hd; discriminate Hd]).
    + cbn [attrs_update bind]. discriminate.
  - cbn [attrs_update bind].
    destruct (dict_get "Run_info" data) as [b|] eqn:Hr.
    + destruct b as [r| | | |]; cbn [attrs_update bind]; try discriminate;
        intros Hx; inversion Hx; (split; [reflexivity|]);
        exists "Run_info"; eexists; (split; [right; reflexivity|]);
        (split; [exact Hr|intros d Hd; discriminate Hd]).
    + cbn [attrs_update bind]. discriminate.
Qed.

Lemma convert_raises (attrs0 : dict pyval) (rest : dict Block) (e : exn) :
  xr_Dataset (convert_blocks attrs0 rest) = Raise e ->
  exists key v label size,
    In (key, PlainVariable v) rest /\ startswith_CPU key = false
    /\ In (label, size) (combine (mesh_labels (var_grid v)) (var_dims v))
    /\ lookup_get (dim_size_lookup (convert_blocks attrs0 rest)) label size = Raise e
    /\ e = KeyError (KInt size).
Proof.
  unfold xr_Dataset.
  destruct (mapM (realise (dim_size_lookup (convert_blocks attrs0 rest)))
              (data_vars (convert_blocks attrs0 rest))) as [vars|e0] eqn:Hm;
    cbn [bind]; [discriminate|].
  intros Hr. inversion Hr; subst e0.
  destruct (mapM_raise_origin _ _ _ _ _ Hm) as [[key [[g d] a]] [Hin Hx]].
  unfold convert_blocks in Hin. rewrite fold_visit_data_vars in Hin.
  apply dict_update_In in Hin. cbn [initial_frame data_vars] in Hin.
  destruct Hin as [[]|Hin]. apply in_map_iff in Hin.
  destruct Hin as [[k v] [Heq Hkv]]. cbn [fst snd] in Heq.
  unfold pending_of in Heq. inversion Heq; subst.
  apply kept_variables_In in Hkv. destruct Hkv as [Hkv Hc].
  unfold realise in Hx.
  destruct (consume (dim_size_lookup (convert_blocks attrs0 rest))
              (Gen (combine (mesh_labels (var_grid v)) (var_dims v))))
    as [dims|e0] eqn:Hcons; cbn [bind] in Hx; [discriminate|].
  inversion Hx; subst e0. unfold consume in Hcons. cbn [gen_pairs] in Hcons.
  destruct (mapM_raise_origin _ _ _ _ _ Hcons) as [[label size] [Hp Hl]].
  cbn [fst snd] in Hl.
  exists key, v, label, size. split; [exact Hkv|]. split; [exact Hc|].
  split; [exact Hp|]. split; [exact Hl|].
  apply (lookup_get_raises _ _ _ _ Hl).
Qed.

(** The exceptions of the module's own steps.  The exclusion step fails
    only with [KeyError] on a listed name.  Reading the metadata fails only
    with [TypeError], and only when "Header" or "Run_info" is there and is
    no plain dict.  A generator the loop stored, consumed in the frame the
    loop left, fails only with [KeyError] on the size of an axis of its
    variable block, a block that is kept and is no bookkeeping block, whose
    lookup found nothing. *)
Theorem read_errors (data : dict Block) :
  (forall (drop_variables : option (list string)) (e : exn),
     drop_requested drop_variables data = Raise e ->
     exists names n,
       drop_variables = Some names /\ In n names /\ e = KeyError (KStr n))
  /\ (forall e : exn,
        read_metadata data = Raise e ->
        e = TypeError
        /\ exists key b,
             (key = "Header" \/ key = "Run_info")
             /\ dict_get key data = Some b /\ forall d, b <> PyDict d)
  /\ (forall (attrs0 : dict pyval) (key : string) (g : var_coords_gen)
             (d : ndarray) (a : dict pyval) (e : exn),
        In (key, (g, d, a)) (data_vars (convert_blocks attrs0 data)) ->
        consume (dim_size_lookup (convert_blocks attrs0 data)) g = Raise e ->
        exists v label size,
          In (key, PlainVariable v) data /\ startswith_CPU key = false
          /\ g = fst (fst (pending_of v))
          /\ In (label, size) (combine (mesh_labels (var_grid v)) (var_dims v))
          /\ lookup_get (dim_size_lookup (convert_blocks attrs0 data)) label size
             = Raise e
          /\ e = KeyError (KInt size)).
Proof.
  split; [|split].
  - intros drop_variables e Hdrop.
    destruct drop_variables as [names|]; [|discriminate Hdrop].
    rewrite drop_requested_some in Hdrop.
    destruct (pop_each_raises _ _ _ Hdrop) as [n [Hn He]].
    exists names, n. auto.
  - intros e Hm. apply (read_metadata_raises _ _ Hm).
  - intros attrs0 key g d a e Hin Hcons.
    unfold convert_blocks in Hin. rewrite fold_visit_data_vars in Hin.
    apply dict_update_In in Hin. cbn [initial_frame data_vars] in Hin.
    destruct Hin as [[]|Hin]. apply in_map_iff in Hin.
    destruct Hin as [[k v] [Heq Hkv]]. cbn [fst snd] in Heq.
    unfold pending_of in Heq. inversion Heq; subst.
    apply kept_variables_In in Hkv. destruct Hkv as [Hkv Hc].
    unfold consume in Hcons. cbn [gen_pairs] in Hcons.
    destruct (mapM_raise_origin _ _ _ _ _ Hcons) as [[label size] [Hp Hl]].
    cbn [fst snd] in Hl.
    exists v, label, size. split; [exact Hkv|]. split; [exact Hc|].
    split; [reflexivity|]. split; [exact Hp|]. split; [exact Hl|].
    apply (lookup_get_raises _ _ _ _ Hl).
Qed.

Lemma read_errors_witness :
  let rest := blocks_of Samples.rho_file in
  let fr := convert_blocks [("time", PyFloat 2.0%float)] rest in
  let g := fst (fst (pending_of Samples.Ex)) in
  In ("Electric Field/Ex", (g, var_data Samples.Ex, [("units", PyStr "V/m")]))
     (data_vars fr)
  /\ consume (dim_size_lookup fr) g = Raise (KeyError (KInt 128))
  /\ drop_requested (Some ["zz"]) rest = Raise (KeyError (KStr "zz"))
  /\ exists v label size,
       In ("Electric Field/Ex", PlainVariable v) rest
       /\ In (label, size) (combine (mesh_labels (var_grid v)) (var_dims v))
       /\ KeyError (KInt 128) = KeyError (KInt size).
Proof.
  intros rest fr g.
  assert (Hin : In ("Electric Field/Ex",
                    (g, var_data Samples.Ex, [("units", PyStr "V/m")]))
                   (data_vars fr)).
  { vm_compute. left. reflexivity. }
  assert (Hc : consume (dim_size_lookup fr) g = Raise (KeyError (KInt 128)))
    by (vm_compute; reflexivity).
  split; [exact Hin|]. split; [exact Hc|]. split; [reflexivity|].
  destruct (read_errors rest) as [_ [_ Hgen]].
  destruct (Hgen _ _ _ _ _ _ Hin Hc) as [v [label [size [Hv [_ [_ [Hp [_ He]]]]]]]].
  exists v, label, size. auto.
Defined.

(* ================================================================== *)
(** * Files whose variables lie on one pair of meshes *)

Lemma kept_variables_lookup (rest : dict Block) (attrs0 : dict pyval) (key : string)
  (v : BlockPlainVariable) :
  (forall k' v', In (k', PlainVariable v') rest -> startswith_CPU k' = false ->
                 build_lookup v' = build_lookup v) ->
  In (key, v) (kept_variables rest) ->
  dim_size_lookup (convert_blocks attrs0 rest) = build_lookup v.
Proof.
  intros Hall Hin. apply kept_variables_In in Hin. destruct Hin as [Hin Hc].
  unfold convert_blocks. apply (fold_visit_lookup_shared rest _ key v Hall Hin Hc).
Qed.

(** When all the variable blocks of a file lie on one pair of meshes, and
    every axis of every one of them has a label whose (label, size) pair
    is on one of the two meshes, no lookup fails: the generator the loop
    stored for a variable, consumed in the frame the loop left, yields one
    coordinate name per axis, in the order of the axes, the staggered
    mesh's name where the staggered mesh has the pair and the primary
    mesh's name otherwise; and these are the variable's dimensions in a
    dataset that the read returns. *)
Theorem shared_meshes_resolve (data : dict Block)
  (drop_variables : option (list string)) (data1 : dict Block)
  (attrs0 : dict pyval) (rest : dict Block) (g gm : BlockPlainMesh) :
  NoDup (dict_keys data) ->
  drop_requested drop_variables data = Ok data1 ->
  read_metadata data1 = Ok (attrs0, rest) ->
  (forall k v, In (k, PlainVariable v) data1 -> startswith_CPU k = false ->
               var_grid v = g /\ var_grid_mid v = gm) ->
  (forall k v i size,
     In (k, PlainVariable v) data1 -> startswith_CPU k = false ->
     nth_error (var_dims v) i = Some size ->
     exists label,
       nth_error (mesh_labels g) i = Some label
       /\ (In (size, label) (combine (mesh_dims g) (mesh_labels g))
           \/ In (size, label) (combine (mesh_dims gm) (mesh_labels gm)))) ->
  forall k v,
    In (k, PlainVariable v) data1 -> startswith_CPU k = false ->
    k <> "Header" -> k <> "Run_info" ->
    exists names,
      dict_get k (data_vars (convert_blocks attrs0 rest)) = Some (pending_of v)
      /\ consume (dim_size_lookup (convert_blocks attrs0 rest))
           (fst (fst (pending_of v)))
         = Ok names
      /\ length names = length (var_dims v)
      /\ (forall i label size,
            nth_error (mesh_labels g) i = Some label ->
            nth_error (var_dims v) i = Some size ->
            exists name,
              nth_error names i = Some name
              /\ (In (size, label) (combine (mesh_dims gm) (mesh_labels gm)) ->
                  name = full_name label (base_name (mesh_name gm)))
              /\ (~ In (size, label) (combine (mesh_dims gm) (mesh_labels gm)) ->
                  name = full_name label (base_name (mesh_name g))))
      /\ (forall ds,
            open_sdf_dataset data drop_variables = Ok ds ->
            dims_of ds k = Some names).
Proof.
  intros Hnd Hdrop Hmeta Hshared Hall k v Hin Hc Hh Hr.
  pose proof (read_metadata_rest _ _ _ Hmeta) as Hrest. fold (blocks_of data1) in Hrest.
  subst rest.
  pose proof (blocks_of_NoDup _ (drop_requested_NoDup _ _ _ Hnd Hdrop)) as Hndr.
  assert (Hkv : In (k, PlainVariable v) (blocks_of data1))
    by (apply blocks_of_In; auto).
  destruct (Hshared k v Hin Hc) as [Hg Hgm].
  assert (Htable : dim_size_lookup (convert_blocks attrs0 (blocks_of data1))
                   = build_lookup v).
  { unfold convert_blocks.
    apply (fold_visit_lookup_shared _ _ k v); [|exact Hkv|exact Hc].
    intros k' v' Hin' Hc'. apply blocks_of_In in Hin'. destruct Hin' as [Hin' _].
    destruct (Hshared k' v' Hin' Hc') as [H1 H2].
    unfold build_lookup. rewrite H1, H2, Hg, Hgm. reflexivity. }
  assert (Hget : dict_get k (data_vars (convert_blocks attrs0 (blocks_of data1)))
                 = Some (pending_of v)).
  { unfold convert_blocks. apply fold_visit_data_vars_get; assumption. }
  destruct (consume_own_lookup v) as [names [Hcons [Hlen Hnth]]].
  { cbv zeta. rewrite Hg, Hgm. intros i size Hd. apply (Hall k v i size Hin Hc Hd). }
  exists names. split; [exact Hget|]. rewrite Htable.
  split; [exact Hcons|]. split; [exact Hlen|]. split.
  - intros i label size Hl Hd. cbv zeta in Hnth. rewrite Hg, Hgm in Hnth.
    destruct (Hnth i label size Hl Hd) as [name [Hn [_ [H1 H2]]]].
    exists name. auto.
  - intros ds Hopen. unfold open_sdf_dataset, assemble in Hopen.
    rewrite Hdrop in Hopen. cbn [bind] in Hopen. rewrite Hmeta in Hopen.
    cbn [bind] in Hopen. unfold xr_Dataset in Hopen.
    destruct (mapM (realise (dim_size_lookup (convert_blocks attrs0 (blocks_of data1))))
                (data_vars (convert_blocks attrs0 (blocks_of data1))))
      as [vars|e] eqn:Hvars; cbn [bind] in Hopen; [|discriminate].
    inversion Hopen; subst ds. unfold dims_of. cbn [ds_data_vars].
    unfold pending_of in Hget.
    destruct (mapM_realise_get _ _ _ _ _ _ _ Hvars Hget) as [names' [Hcons' Hd]].
    rewrite Htable in Hcons'. unfold pending_of in Hcons. cbn [fst] in Hcons.
    rewrite Hcons in Hcons'. inversion Hcons'; subst names'.
    rewrite Hd. reflexivity.
Qed.

Lemma shared_meshes_resolve_witness :
  let data := Samples.one_file in
  NoDup (dict_keys data)
  /\ drop_requested None data = Ok data
  /\ read_metadata data = Ok ([("time", PyFloat 2.0%float)], blocks_of data)
  /\ exists names,
       consume
         (dim_size_lookup (convert_blocks [("time", PyFloat 2.0%float)] (blocks_of data)))
         (fst (fst (pending_of Samples.Ex)))
       = Ok names
       /\ length names = length (var_dims Samples.Ex)
       /\ forall ds, open_sdf_dataset data None = Ok ds ->
                     dims_of ds "Electric Field/Ex" = Some names.
Proof.
  intros data.
  assert (Hnd : NoDup (dict_keys data)).
  { vm_compute.
    repeat (constructor;
            [intros H; repeat (destruct H as [H|H]; [discriminate H|]); exact H|]).
    constructor. }
  assert (Hm : read_metadata data = Ok ([("time", PyFloat 2.0%float)], blocks_of data))
    by reflexivity.
  split; [exact Hnd|]. split; [reflexivity|]. split; [exact Hm|].
  destruct (shared_meshes_resolve data None data _ _ Samples.Grid Samples.Grid_mid
              Hnd eq_refl Hm) with (k := "Electric Field/Ex") (v := Samples.Ex)
    as [names [_ [Hcons [Hlen [_ Hds]]]]].
  - intros k v Hin Hc. unfold data, Samples.one_file in Hin.
    repeat (destruct Hin as [Hin|Hin];
            [inversion Hin; subst; try discriminate Hc; split; reflexivity|]).
    contradiction.
  - intros k v i size Hin Hc Hd. unfold data, Samples.one_file in Hin.
    repeat (destruct Hin as [Hin|Hin];
            [inversion Hin; subst; try discriminate Hc|]); [|contradiction].
    destruct i as [|[|i]]; simpl in Hd; try discriminate Hd.
    inversion Hd; subst size. exists "X". split; [reflexivity|].
    right. simpl. left. reflexivity.
  - vm_compute. tauto.
  - reflexivity.
  - discriminate.
  - discriminate.
  - exists names. split; [exact Hcons|]. split; [exact Hlen|exact Hds].
Defined.

(* ================================================================== *)
(** * The exclusion list as a filter *)

Lemma filter_twice (A : Type) (f g : A -> bool) (l : list A) :
  filter f (filter g l) = filter (fun x => g x && f x) l.
Proof.
  induction l as [|a r IH]; simpl; [reflexivity|].
  destruct (g a); simpl; [destruct (f a)|]; rewrite IH; reflexivity.
Qed.

Lemma remove_all_filter (names : list string) (data : dict Block) :
  remove_all names data
  = filter (fun kv : string * Block => negb (existsb (String.eqb (fst kv)) names)) data.
Proof.
  unfold remove_all. revert data.
  induction names as [|a r IH]; cbn [fold_left existsb]; intros data.
  - induction data as [|kv l IHl]; [reflexivity|]. cbn [filter negb]. f_equal. exact IHl.
  - rewrite IH. unfold dict_remove. rewrite filter_twice.
    apply filter_ext. intros kv. cbn [keqb EqKey_string].
    rewrite (String.eqb_sym a (fst kv)).
    destruct (String.eqb (fst kv) a); reflexivity.
Qed.

Lemma existsb_Permutation (A : Type) (f : A -> bool) (l l' : list A) :
  Permutation l l' -> existsb f l = existsb f l'.
Proof.
  intros Hp. destruct (existsb f l) eqn:E; symmetry.
  - apply existsb_exists in E. destruct E as [x [Hin Hx]].
    apply existsb_exists. exists x. split; [|exact Hx].
    apply (Permutation_in _ Hp Hin).
  - destruct (existsb f l') eqn:E'; [|reflexivity].
    apply existsb_exists in E'. destruct E' as [x [Hin Hx]].
    assert (Ht : existsb f l = true).
    { apply existsb_exists. exists x. split; [|exact Hx].
      apply (Permutation_in _ (Permutation_sym Hp) Hin). }
    congruence.
Qed.

(** Excluding names that are all present, each listed once, is filtering
    the mapping by name before it is read, and the order in which the names
    are listed does not matter. *)
Theorem exclusion_is_a_filter (data : dict Block) (names names' : list string) :
  NoDup names -> (forall n, In n names -> In n (dict_keys data)) ->
  Permutation names names' ->
  open_sdf_dataset data (Some names)
  = assemble (filter (fun kv : string * Block =>
                        negb (existsb (String.eqb (fst kv)) names)) data)
  /\ open_sdf_dataset data (Some names) = open_sdf_dataset data (Some names').
Proof.
  intros Hnd Hall Hp.
  assert (Hopen : forall l, NoDup l -> (forall n, In n l -> In n (dict_keys data)) ->
             open_sdf_dataset data (Some l)
             = assemble (filter (fun kv : string * Block =>
                                   negb (existsb (String.eqb (fst kv)) l)) data)).
  { intros l Hl Hin. unfold open_sdf_dataset.
    rewrite drop_requested_some, (pop_each_present l data Hl Hin). cbn [bind].
    rewrite remove_all_filter. reflexivity. }
  split; [apply Hopen; assumption|].
  rewrite (Hopen names Hnd Hall).
  rewrite (Hopen names').
  - f_equal. apply filter_ext. intros kv. f_equal.
    apply existsb_Permutation, Hp.
  - apply (Permutation_NoDup Hp Hnd).
  - intros n Hn. apply Hall. apply (Permutation_in _ (Permutation_sym Hp) Hn).
Qed.

Lemma exclusion_is_a_filter_witness :
  let data := Samples.one_file in
  let names := ["Wall-time"; "Grid/Grid"] in
  let names' := ["Grid/Grid"; "Wall-time"] in
  NoDup names
  /\ (forall n, In n names -> In n (dict_keys data))
  /\ Permutation names names'
  /\ open_sdf_dataset data (Some names) = open_sdf_dataset data (Some names').
Proof.
  intros data names names'.
  assert (Hnd : NoDup names).
  { constructor; [simpl; intros [H|[]]; discriminate H|].
    constructor; [simpl; tauto|constructor]. }
  assert (Hall : forall n, In n names -> In n (dict_keys data)).
  { intros n [<-|[<-|[]]]; simpl; tauto. }
  assert (Hp : Permutation names names') by apply perm_swap.
  split; [exact Hnd|]. split; [exact Hall|]. split; [exact Hp|].
  exact (proj2 (exclusion_is_a_filter data names names' Hnd Hall Hp)).
Defined.

(* ================================================================== *)
(** * The probe by file name *)

Lemma substring_whole (s : string) : substring 0 (String.length s) s = s.
Proof. induction s as [|c r IH]; simpl; [reflexivity|]. rewrite IH. reflexivity. Qed.

Lemma substring_split (s : string) (n : nat) :
  (n <= String.length s)%nat ->
  (substring 0 n s ++ substring n (String.length s - n) s)%string = s.
Proof.
  revert n. induction s as [|c r IH]; intros n Hn.
  - simpl in Hn. assert (n = 0)%nat by lia. subst n. reflexivity.
  - destruct n as [|n].
    + rewrite Nat.sub_0_r, substring_whole. reflexivity.
    + simpl in Hn. simpl. rewrite IH by lia. reflexivity.
Qed.

Lemma substring_tail (a b : string) :
  substring (String.length a) (String.length b) (a ++ b)%string = b.
Proof.
  induction a as [|c r IH]; simpl; [apply substring_whole|exact IH].
Qed.

Lemma length_append (a b : string) :
  String.length (a ++ b)%string = (String.length a + String.length b)%nat.
Proof. induction a as [|c r IH]; simpl; [reflexivity|]. rewrite IH. reflexivity. Qed.

Lemma get_at_length (a b : string) (c : ascii) :
  String.get (String.length a) (a ++ String c b)%string = Some c.
Proof. induction a as [|x r IH]; simpl; [reflexivity|exact IH]. Qed.

Lemma rfind_from_range (c : ascii) (s : string) (i last_seen : Z) :
  (last_seen < i)%Z ->
  rfind_from c s i last_seen = last_seen
  \/ (i <= rfind_from c s i last_seen < i + Z.of_nat (String.length s))%Z.
Proof.
  revert i last_seen. induction s as [|x r IH]; intros i last_seen Hl; [left; reflexivity|].
  cbn [rfind_from String.length]. destruct (Ascii.eqb x c).
  - destruct (IH (i + 1)%Z i) as [-> | Hr]; [lia| |]; right; lia.
  - destruct (IH (i + 1)%Z last_seen) as [-> | Hr]; [lia|left; reflexivity|right; lia].
Qed.

Lemma rfind_range (c : ascii) (s : string) :
  rfind c s = (-1)%Z \/ (0 <= rfind c s < Z.of_nat (String.length s))%Z.
Proof.
  unfold rfind. destruct (rfind_from_range c s 0 (-1)) as [H|H]; [lia|auto|right; lia].
Qed.

Lemma rfind_from_app (c : ascii) (s1 s2 : string) (i last_seen : Z) :
  rfind_from c (s1 ++ s2)%string i last_seen
  = rfind_from c s2 (i + Z.of_nat (String.length s1)) (rfind_from c s1 i last_seen).
Proof.
  revert i last_seen. induction s1 as [|x r IH]; intros i last_seen.
  - simpl. rewrite Z.add_0_r. reflexivity.
  - cbn [append rfind_from String.length]. rewrite IH. f_equal. lia.
Qed.

Lemma rfind_from_no_slash (s : string) (i last_seen : Z) :
  has_slash s = false -> rfind_from "/" s i last_seen = last_seen.
Proof.
  revert i last_seen. induction s as [|x r IH]; intros i last_seen Hs; [reflexivity|].
  cbn [has_slash] in Hs. apply orb_false_iff in Hs. destruct Hs as [Hx Hr].
  cbn [rfind_from]. rewrite Hx. apply IH, Hr.
Qed.

Lemma splitext_joins (p : string) :
  (fst (splitext p) ++ snd (splitext p))%string = p.
Proof.
  unfold splitext.
  destruct ((rfind "/" p <? rfind "." p)%Z
            && name_before_dot p (rfind "/" p + 1)
                 (Z.to_nat (rfind "." p - (rfind "/" p + 1)))) eqn:Hc; cbn [fst snd].
  - apply substring_split. destruct (rfind_range "." p); lia.
  - clear Hc. induction p as [|c r IH]; simpl; [reflexivity|]. rewrite IH. reflexivity.
Qed.

Lemma splitext_root_nonempty (p : string) :
  snd (splitext p) <> EmptyString -> fst (splitext p) <> EmptyString.
Proof.
  unfold splitext.
  destruct ((rfind "/" p <? rfind "." p)%Z
            && name_before_dot p (rfind "/" p + 1)
                 (Z.to_nat (rfind "." p - (rfind "/" p + 1)))) eqn:Hc; cbn [fst snd];
    [|intros H; exfalso; apply H; reflexivity].
  intros _. apply andb_true_iff in Hc. destruct Hc as [_ Hn].
  destruct (Z.to_nat (rfind "." p - (rfind "/" p + 1))) as [|k] eqn:Hk;
    [discriminate Hn|].
  assert (Hdot : (1 <= rfind "." p)%Z) by (destruct (rfind_range "/" p); lia).
  destruct (rfind_range "." p) as [Hm|Hr]; [lia|].
  destruct p as [|c r]; [simpl in Hr; lia|].
  destruct (Z.to_nat (rfind "." (String c r))) as [|n] eqn:Hz; [lia|].
  simpl. discriminate.
Qed.

Lemma substring_head (a b : string) :
  substring 0 (String.length a) (a ++ b)%string = a.
Proof.
  induction a as [|c r IH]; simpl; [destruct b; reflexivity|].
  rewrite IH. reflexivity.
Qed.

Lemma append_assoc (a b c : string) :
  ((a ++ b) ++ c)%string = (a ++ (b ++ c))%string.
Proof. induction a as [|x r IH]; simpl; [reflexivity|]. rewrite IH. reflexivity. Qed.

Lemma rfind_slash_of_dir (dir : string) :
  dir = EmptyString \/ (exists d, dir = (d ++ "/")%string) ->
  rfind "/" dir = (Z.of_nat (String.length dir) - 1)%Z.
Proof.
  intros [-> | [d ->]]; [reflexivity|].
  unfold rfind. rewrite rfind_from_app, length_append. cbn [rfind_from String.length].
  rewrite Ascii.eqb_refl. lia.
Qed.

Lemma splitext_of_named (dir rest ext : string) (c0 : ascii) :
  dir = EmptyString \/ (exists d, dir = (d ++ "/")%string) ->
  c0 <> "."%char -> c0 <> "/"%char -> has_slash rest = false ->
  ext = ".sdf" \/ ext = ".SDF" ->
  splitext ((dir ++ String c0 rest) ++ ext)%string = ((dir ++ String c0 rest)%string, ext).
Proof.
  intros Hdir Hdot Hslash Hrest Hext.
  set (root := (dir ++ String c0 rest)%string).
  assert (Hc0dot : Ascii.eqb c0 "." = false) by (apply Ascii.eqb_neq; exact Hdot).
  assert (Hc0sl : Ascii.eqb c0 "/" = false) by (apply Ascii.eqb_neq; exact Hslash).
  assert (Hd : rfind "." (root ++ ext)%string = Z.of_nat (String.length root)).
  { unfold rfind. rewrite rfind_from_app.
    destruct Hext as [-> | ->]; cbn [rfind_from]; cbn; reflexivity. }
  assert (Hs : rfind "/" (root ++ ext)%string = (Z.of_nat (String.length dir) - 1)%Z).
  { unfold rfind. rewrite rfind_from_app.
    rewrite rfind_from_no_slash by (destruct Hext as [-> | ->]; reflexivity).
    unfold root. rewrite rfind_from_app.
    rewrite rfind_from_no_slash.
    - apply rfind_slash_of_dir, Hdir.
    - cbn [has_slash]. rewrite Hc0sl, Hrest. reflexivity. }
  assert (Hlen : String.length root = (String.length dir + S (String.length rest))%nat).
  { unfold root. rewrite length_append. reflexivity. }
  assert (Hget : String.get (String.length dir) (root ++ ext)%string = Some c0).
  { unfold root. rewrite append_assoc. cbn [append]. apply get_at_length. }
  unfold splitext. rewrite Hd, Hs.
  replace (Z.of_nat (String.length dir) - 1 + 1)%Z with (Z.of_nat (String.length dir))
    by lia.
  replace (Z.to_nat (Z.of_nat (String.length root) - Z.of_nat (String.length dir)))
    with (S (String.length rest)) by lia.
  assert (Hlt : (Z.of_nat (String.length dir) - 1 <? Z.of_nat (String.length root))%Z = true)
    by (apply Z.ltb_lt; lia).
  rewrite Hlt. cbn [andb name_before_dot]. rewrite !Nat2Z.id.
  rewrite Hget, Hc0dot.
  rewrite substring_head, length_append.
  replace (String.length root + String.length ext - String.length root)%nat
    with (String.length ext) by lia.
  rewrite substring_tail. reflexivity.
Qed.

(** When the magic bytes could not be read, a name is accepted only if it
    is a non-empty root followed by ".sdf" or ".SDF", and a path object is
    treated like its str.  Every name whose last path component starts
    with a character other than "." and ends in ".sdf" or ".SDF" is
    accepted. *)
Theorem probe_by_name (p : string) :
  (guess_can_open None (PathStr p) = true ->
   exists root,
     root <> EmptyString
     /\ (p = (root ++ ".sdf")%string \/ p = (root ++ ".SDF")%string))
  /\ guess_can_open None (PathLike p) = guess_can_open None (PathStr p)
  /\ (forall (dir rest ext : string) (c0 : ascii),
        p = ((dir ++ String c0 rest) ++ ext)%string ->
        dir = EmptyString \/ (exists d, dir = (d ++ "/")%string) ->
        c0 <> "."%char -> c0 <> "/"%char -> has_slash rest = false ->
        ext = ".sdf" \/ ext = ".SDF" ->
        guess_can_open None (PathStr p) = true).
Proof.
  split; [|split; [reflexivity|]].
  - cbn [guess_can_open]. intros Hg. apply is_sdf_ext_spec in Hg.
    exists (fst (splitext p)). split.
    + apply splitext_root_nonempty. destruct Hg as [-> | ->]; discriminate.
    + pose proof (splitext_joins p) as Hj.
      destruct Hg as [He|He]; rewrite He in Hj; [left|right]; symmetry; exact Hj.
  - intros dir rest ext c0 -> Hdir Hdot Hslash Hrest Hext.
    cbn [guess_can_open].
    rewrite (splitext_of_named dir rest ext c0 Hdir Hdot Hslash Hrest Hext).
    cbn [snd]. apply is_sdf_ext_spec. exact Hext.
Qed.

Lemma probe_by_name_witness :
  let p := "run/0001.sdf" in
  guess_can_open None (PathStr p) = true
  /\ (exists root,
        root <> EmptyString
        /\ (p = (root ++ ".sdf")%string \/ p = (root ++ ".SDF")%string))
  /\ p = (("run/" ++ String "0" "001") ++ ".sdf")%string
  /\ has_slash "001" = false.
Proof.
  intros p.
  destruct (probe_by_name p) as [Hfwd [_ Hbwd]].
  assert (Hg : guess_can_open None (PathStr p) = true).
  { apply (Hbwd "run/" "001" ".sdf" "0"%char).
    - reflexivity.
    - right. exists "run". reflexivity.
    - discriminate.
    - discriminate.
    - reflexivity.
    - left. reflexivity. }
  split; [exact Hg|]. split; [exact (Hfwd Hg)|]. split; reflexivity.
Defined.

(* ================================================================== *)
(** * Variables and the mesh blocks of the mapping *)

Lemma dict_get_filter_kept (keep : string * Block -> bool) (key : string)
  (l : dict Block) :
  (forall value, keep (key, value) = true) ->
  dict_get key (filter keep l) = dict_get key l.
Proof.
  intros Hk. induction l as [|[k1 v1] r IH]; [reflexivity|].
  cbn [filter]. destruct (keep (k1, v1)) eqn:Hkeep; cbn [dict_get].
  - rewrite IH. reflexivity.
  - destruct (keqb_spec key k1) as [Heq|_]; [|exact IH].
    subst k1. rewrite Hk in Hkeep. discriminate Hkeep.
Qed.

Lemma visit_mesh_free (fr : Frame) (item : string * Block) :
  not_mesh item = false ->
  attrs (visit fr item) = attrs fr
  /\ data_vars (visit fr item) = data_vars fr
  /\ dim_size_lookup (visit fr item) = dim_size_lookup fr.
Proof.
  destruct item as [key value]. unfold not_mesh. cbn [fst snd]. intros Hn.
  apply orb_false_iff in Hn. destruct Hn as [_ Hv].
  unfold visit. destruct (startswith_CPU key); [auto|].
  destruct value; try discriminate Hv. cbn. auto.
Qed.

Lemma visit_same_but_coords (fr fr' : Frame) (item : string * Block) :
  attrs fr' = attrs fr -> data_vars fr' = data_vars fr ->
  dim_size_lookup fr' = dim_size_lookup fr ->
  attrs (visit fr' item) = attrs (visit fr item)
  /\ data_vars (visit fr' item) = data_vars (visit fr item)
  /\ dim_size_lookup (visit fr' item) = dim_size_lookup (visit fr item).
Proof.
  destruct item as [key value]. intros Ha Hd Hl. unfold visit.
  destruct (startswith_CPU key); [auto|].
  destruct value; cbn [attrs data_vars dim_size_lookup]; rewrite ?Ha, ?Hd, ?Hl; auto.
Qed.

Lemma fold_visit_without_meshes (l : dict Block) (fr fr' : Frame) :
  attrs fr' = attrs fr -> data_vars fr' = data_vars fr ->
  dim_size_lookup fr' = dim_size_lookup fr ->
  attrs (fold_left visit (filter not_mesh l) fr') = attrs (fold_left visit l fr)
  /\ data_vars (fold_left visit (filter not_mesh l) fr')
     = data_vars (fold_left visit l fr)
  /\ dim_size_lookup (fold_left visit (filter not_mesh l) fr')
     = dim_size_lookup (fold_left visit l fr).
Proof.
  revert fr fr'. induction l as [|item r IH]; intros fr fr' Ha Hd Hl; [auto|].
  cbn [filter fold_left]. destruct (not_mesh item) eqn:Hn.
  - cbn [fold_left].
    destruct (visit_same_but_coords fr fr' item Ha Hd Hl) as [Ha' [Hd' Hl']].
    apply IH; assumption.
  - destruct (visit_mesh_free fr item Hn) as [Ha' [Hd' Hl']].
    apply IH; congruence.
Qed.

Lemma kept_mesh_coords_without_meshes (l : dict Block) :
  (forall key value, In (key, value) l -> key <> "Header" /\ key <> "Run_info") ->
  kept_mesh_coords (filter not_mesh l) = [].
Proof.
  induction l as [|[key value] r IH]; intros Hk; [reflexivity|].
  cbn [filter]. destruct (not_mesh (key, value)) eqn:Hn.
  - unfold kept_mesh_coords. cbn [flat_map fst snd]. fold (kept_mesh_coords (filter not_mesh r)).
    rewrite IH by (intros k v Hin; apply (Hk k v); right; exact Hin).
    destruct (startswith_CPU key); [reflexivity|].
    destruct value; try reflexivity.
    exfalso. unfold not_mesh in Hn. cbn [fst snd] in Hn.
    destruct (Hk key (PlainMesh m) (or_introl eq_refl)) as [H1 H2].
    apply String.eqb_neq in H1, H2. rewrite H1, H2 in Hn. discriminate Hn.
  - apply IH. intros k v Hin. apply (Hk k v). right. exact Hin.
Qed.

Lemma read_metadata_without_meshes (data : dict Block) :
  read_metadata (filter not_mesh data)
  = match read_metadata data with
    | Ok (attrs0, rest) => Ok (attrs0, filter not_mesh rest)
    | Raise e => Raise e
    end.
Proof.
  rewrite !read_metadata_eq, !get_or_empty_unfold.
  rewrite (dict_get_filter_kept not_mesh "Header" data) by (intros value; reflexivity).
  rewrite (dict_get_filter_kept not_mesh "Run_info" data) by (intros value; reflexivity).
  unfold dict_remove.
  rewrite (filter_swap _ _ not_mesh data), (filter_swap _ _ not_mesh).
  destruct (attrs_update []
              match dict_get "Header" data with
              | Some value => value
              | None => PyDict []
              end) as [attrs1|e]; cbn [bind]; [|reflexivity].
  destruct (attrs_update attrs1
              match dict_get "Run_info" data with
              | Some value => value
              | None => PyDict []
              end) as [attrs2|e]; cbn [bind]; reflexivity.
Qed.

(** What the loop prepares for the variables does not depend on the mesh
    blocks of the mapping.  Without its mesh blocks a mapping gives the
    same metadata (or the same exception while reading it) and, after the
    loop, the same attributes, the same data variables with the same
    generators, and the same table in [dim_size_lookup], so that each
    generator yields the same names or raises the same exception; only the
    coordinates differ, and there are none.  The dimension names of a
    variable come from the meshes the variable block refers to, whether or
    not those meshes are blocks of the mapping. *)
Theorem variables_do_not_need_mesh_blocks (data : dict Block) :
  match read_metadata data, read_metadata (filter not_mesh data) with
  | Ok (attrs0, rest), Ok (attrs0', rest') =>
      attrs0' = attrs0 /\ rest' = filter not_mesh rest
      /\ attrs (convert_blocks attrs0' rest') = attrs (convert_blocks attrs0 rest)
      /\ data_vars (convert_blocks attrs0' rest')
         = data_vars (convert_blocks attrs0 rest)
      /\ dim_size_lookup (convert_blocks attrs0' rest')
         = dim_size_lookup (convert_blocks attrs0 rest)
      /\ coords (convert_blocks attrs0' rest') = []
      /\ (forall key g d a,
            In (key, (g, d, a)) (data_vars (convert_blocks attrs0 rest)) ->
            consume (dim_size_lookup (convert_blocks attrs0' rest')) g
            = consume (dim_size_lookup (convert_blocks attrs0 rest)) g)
  | Raise e, Raise e' => e' = e
  | _, _ => False
  end.
Proof.
  rewrite read_metadata_without_meshes.
  destruct (read_metadata data) as [[attrs0 rest]|e] eqn:Hm; [|reflexivity].
  pose proof (read_metadata_rest _ _ _ Hm) as Hrest. fold (blocks_of data) in Hrest.
  unfold convert_blocks.
  destruct (fold_visit_without_meshes rest (initial_frame attrs0)
              (initial_frame attrs0) eq_refl eq_refl eq_refl) as [Ha [Hd Hl]].
  split; [reflexivity|]. split; [reflexivity|]. split; [exact Ha|].
  split; [exact Hd|]. split; [exact Hl|]. split.
  - rewrite fold_visit_coords. cbn [initial_frame coords].
    rewrite kept_mesh_coords_without_meshes; [reflexivity|].
    intros key value Hin. rewrite Hrest in Hin. apply blocks_of_In in Hin. tauto.
  - intros key g d a _. rewrite Hl. reflexivity.
Qed.

(* ================================================================== *)
(** * Lookups that fail, and names that split *)

(** A lookup in the table of a variable fails exactly when the (label,
    size) pair is on neither of its meshes, and a failed lookup, in any
    table, raises [KeyError] with the size alone, also when it is the
    label that the table does not know. *)
Theorem lookup_failure (v : BlockPlainVariable) (l : string) (s : Z) :
  (lookup_get (build_lookup v) l s = Raise (KeyError (KInt s))
   <-> ~ In (s, l) (combine (mesh_dims (var_grid v)) (mesh_labels (var_grid v)))
       /\ ~ In (s, l)
            (combine (mesh_dims (var_grid_mid v)) (mesh_labels (var_grid_mid v))))
  /\ (forall (t : lookup) (e : exn),
        lookup_get t l s = Raise e -> e = KeyError (KInt s))
  /\ (forall t : lookup,
        dict_get l t = None -> lookup_get t l s = Raise (KeyError (KInt s))).
Proof.
  split; [|split].
  - split.
    + intros Hr. destruct (staggered_lookup_cases v) as [Hmid Hprim].
      destruct (in_dec pair_Z_string_dec (s, l)
                  (combine (mesh_dims (var_grid_mid v)) (mesh_labels (var_grid_mid v))))
        as [Hm|Hm].
      * rewrite (Hmid l s Hm) in Hr. discriminate Hr.
      * split; [|exact Hm]. intros Hp.
        rewrite (Hprim l s Hp Hm) in Hr. discriminate Hr.
    + intros [Hp Hm]. apply build_lookup_misses; assumption.
  - intros t e. apply lookup_get_raises.
  - intros t Hn. unfold lookup_get, inner_of. rewrite Hn. reflexivity.
Qed.

(** The part of a block name that makes the coordinate names is the
    name itself when it has no "/"; otherwise the name is some text
    without "/", then "/", then that part: splitting and joining again
    gives the name back. *)
Theorem base_name_joins (key : string) :
  (has_slash key = false /\ base_name key = key)
  \/ (exists a, has_slash a = false /\ key = (a ++ "/" ++ base_name key)%string).
Proof.
  induction key as [|c r IH].
  - left. split; reflexivity.
  - destruct (Ascii.eqb c "/") eqn:Hc.
    + right. exists EmptyString. split; [reflexivity|].
      apply Ascii.eqb_eq in Hc. subst c. reflexivity.
    + destruct IH as [[Hs Hb]|[a [Ha Hk]]].
      * left. split; [cbn [has_slash]; rewrite Hc, Hs; reflexivity|].
        apply base_name_no_slash. cbn [has_slash]. rewrite Hc, Hs. reflexivity.
      * right. exists (String c a). split; [cbn [has_slash]; rewrite Hc, Ha; reflexivity|].
        assert (Hb : base_name (String c r) = base_name r).
        { rewrite Hk at 1.
          change (String c (a ++ "/" ++ base_name r))%string
            with (String c a ++ "/" ++ base_name r)%string.
          rewrite base_name_after_slash
            by (cbn [has_slash]; rewrite Hc, Ha; reflexivity).
          reflexivity. }
        rewrite Hb. cbn [append]. f_equal. exact Hk.
Qed.

Lemma lookup_failure_witness :
  ~ In (64%Z, "X")
      (combine (mesh_dims (var_grid Samples.Odd)) (mesh_labels (var_grid Samples.Odd)))
  /\ ~ In (64%Z, "X")
        (combine (mesh_dims (var_grid_mid Samples.Odd))
           (mesh_labels (var_grid_mid Samples.Odd)))
  /\ lookup_get (build_lookup Samples.Odd) "X" 64 = Raise (KeyError (KInt 64))
  /\ dict_get "Y" (build_lookup Samples.Odd) = None
  /\ lookup_get (build_lookup Samples.Odd) "Y" 128 = Raise (KeyError (KInt 128)).
Proof.
  assert (Hp : ~ In (64%Z, "X")
                 (combine (mesh_dims (var_grid Samples.Odd))
                    (mesh_labels (var_grid Samples.Odd)))).
  { simpl. intros [H|[]]. inversion H. }
  assert (Hm : ~ In (64%Z, "X")
                 (combine (mesh_dims (var_grid_mid Samples.Odd))
                    (mesh_labels (var_grid_mid Samples.Odd)))).
  { simpl. intros [H|[]]. inversion H. }
  assert (Hy : dict_get "Y" (build_lookup Samples.Odd) = None) by reflexivity.
  destruct (lookup_failure Samples.Odd "X" 64%Z) as [[_ Hfail] _].
  destruct (lookup_failure Samples.Odd "Y" 128%Z) as [_ [_ Hlabel]].
  split; [exact Hp|]. split; [exact Hm|]. split; [exact (Hfail (conj Hp Hm))|].
  split; [exact Hy|exact (Hlabel _ Hy)].
Defined.

(* ================================================================== *)
(** * The staggered name and the table of a later variable *)

(** C4 on the code.  The table built while "Electric Field/Ex" is visited
    is filled from the primary mesh and then from the staggered mesh, and
    in it the axis ("X", 128), with "X" of size 129 on the primary mesh
    and of size 128 on the staggered mesh, has the staggered mesh's name
    X_Grid_mid.  That table is not the one the axis is resolved in: when
    the variable "Derived/Temp" on the meshes Grid/Fine and Grid/Fine_mid
    follows, [dim_size_lookup] holds the table of that variable when the
    generators are consumed, and the axis of Ex resolves to X_Fine_mid;
    when "Derived/Rho" on meshes of other sizes follows, its lookup
    raises [KeyError]. *)
Theorem staggered_name_lost_to_later_table :
  In (129%Z, "X")
     (combine (mesh_dims (var_grid Samples.Ex)) (mesh_labels (var_grid Samples.Ex)))
  /\ In (128%Z, "X")
        (combine (mesh_dims (var_grid_mid Samples.Ex))
           (mesh_labels (var_grid_mid Samples.Ex)))
  /\ build_lookup Samples.Ex
     = populate (var_grid_mid Samples.Ex) (populate (var_grid Samples.Ex) [])
  /\ lookup_get (build_lookup Samples.Ex) "X" 128 = Ok "X_Grid_mid"
  /\ dim_size_lookup
       (convert_blocks [("time", PyFloat 2.0%float)] (blocks_of Samples.temp_file))
     = build_lookup Samples.Temp
  /\ lookup_get (build_lookup Samples.Temp) "X" 128 = Ok "X_Fine_mid"
  /\ (exists ds, open_sdf_dataset Samples.temp_file None = Ok ds
                 /\ dims_of ds "Electric Field/Ex" = Some ["X_Fine_mid"])
  /\ dim_size_lookup
       (convert_blocks [("time", PyFloat 2.0%float)] (blocks_of Samples.rho_file))
     = build_lookup Samples.Rho
  /\ lookup_get (build_lookup Samples.Rho) "X" 128 = Raise (KeyError (KInt 128))
  /\ open_sdf_dataset Samples.rho_file None = Raise (KeyError (KInt 128)).
Proof.
  split; [simpl; auto|]. split; [simpl; auto|]. split; [reflexivity|].
  split; [vm_compute; reflexivity|]. split; [vm_compute; reflexivity|].
  split; [vm_compute; reflexivity|]. split.
  - eexists. split; vm_compute; reflexivity.
  - split; [vm_compute; reflexivity|]. split; vm_compute; reflexivity.
Qed.

(* ================================================================== *)
(** * The capability probe, in full *)




